(** * Project-API: the Flask prediction service of [src/app.py]

    A shallow embedding of the request handlers of [app.py]
    ([predict_crop_endpoint], [predict_soil_endpoint],
    [predict_combined_endpoint], [process_sensor_data]) and of the two
    helpers [predict_crop] and [predict_soil], followed by the properties
    of the specification that concern them.

    Modelling choices.
    - A parsed request body is a JSON value; a Python [dict] is a
      [gmap string json] (key order plays no role in any property here).
    - A Python [float] is an IEEE-754 binary64 number, taken from the
      executable specification [SpecFloat] of the Standard Library
      (precision 53, [emax] 1024); a Python [int] is a [Z].
    - Python exceptions are values of [exn]; an operation that may raise
      returns a [result], and the handlers live in the monad [Py], which
      threads exceptions and the log of the calls made to the two
      prediction helpers.
    - NumPy, the scaler objects and the TensorFlow-Lite interpreters are
      external collaborators: they are the fields of a [Runtime]. *)

From Stdlib Require Import ZArith String List Bool Lia.
From Stdlib Require Import Floats.SpecFloat.
From stdpp Require Import gmap strings list fin_maps.

Set Warnings "-register-all".
Local Open Scope string_scope.
Local Open Scope list_scope.
Local Open Scope Z_scope.

(** ** Floats *)

Abbreviation float := spec_float.

Definition prec : Z := 53.
Definition emax : Z := 1024.

(** [f64 m e] is the binary64 number nearest to [m * 2^e]. *)
Definition f64 (m e : Z) : float := binary_normalize prec emax m e false.

Definition float_6_5 : float := f64 13 (-1).
Definition float_10 : float := f64 10 0.
Definition float_25 : float := f64 25 0.
Definition float_60 : float := f64 60 0.
Definition float_100 : float := f64 100 0.

Definition is_nan (x : float) : bool :=
  match x with S754_nan => true | _ => false end.

Definition float_ltb : float -> float -> bool := SFltb.
Definition float_leb : float -> float -> bool := SFleb.
Definition float_div : float -> float -> float := SFdiv prec emax.

(** ** JSON values and Python exceptions *)

Inductive json :=
| JNull
| JBool (b : bool)
| JInt (z : Z)
| JFloat (f : float)
| JStr (s : string)
| JArr (l : list json)
| JObj (m : gmap string json).

Inductive exn :=
| TypeError (msg : string)
| KeyError (key : string)
| AttributeError (msg : string)
| ValueError (msg : string)
| IndexError (msg : string)
| OverflowError (msg : string)
| ExternalError (msg : string).

Definition py_repr_str (s : string) : string := "'" +:+ s +:+ "'".

(** [str(e)]: a [KeyError] prints the repr of its key. *)
Definition str_exn (e : exn) : string :=
  match e with
  | KeyError k => py_repr_str k
  | TypeError msg | AttributeError msg | ValueError msg
  | IndexError msg | OverflowError msg | ExternalError msg => msg
  end.

Fixpoint py_join (sep : string) (l : list string) : string :=
  match l with
  | [] => ""
  | [s] => s
  | s :: rest => s +:+ sep +:+ py_join sep rest
  end.

(** The repr of a list of strings, as an f-string prints it. *)
Definition py_repr_list (l : list string) : string :=
  "[" +:+ py_join ", " (map py_repr_str l) +:+ "]".

Definition type_name (v : json) : string :=
  match v with
  | JNull => "NoneType"
  | JBool _ => "bool"
  | JInt _ => "int"
  | JFloat _ => "float"
  | JStr _ => "str"
  | JArr _ => "list"
  | JObj _ => "dict"
  end.

(** ** The error monad *)

Inductive result (A : Type) :=
| Ok (a : A)
| Raise (e : exn).
Arguments Ok {A} a.
Arguments Raise {A} e.

(** ** Python operators on JSON values *)

(** [key in data] for a string [key]. *)
Definition py_in (key : string) (data : json) : result bool :=
  match data with
  | JObj m => Ok (bool_decide (is_Some (m !! key)))
  | JArr l =>
      Ok (existsb (fun x => match x with
                            | JStr s => bool_decide (s = key)
                            | _ => false
                            end) l)
  | JStr s => Ok (bool_decide (is_Some (String.index 0 key s)))
  | _ => Raise (TypeError ("argument of type " +:+ py_repr_str (type_name data)
                           +:+ " is not iterable"))
  end.

(** [all(field in data for field in fields)], which stops at the first
    [False] and at the first exception. *)
Fixpoint py_all_in (fields : list string) (data : json) : result bool :=
  match fields with
  | [] => Ok true
  | field :: rest =>
      match py_in field data with
      | Ok true => py_all_in rest data
      | Ok false => Ok false
      | Raise e => Raise e
      end
  end.

(** [data[key]] for a string [key]. *)
Definition py_getitem (data : json) (key : string) : result json :=
  match data with
  | JObj m =>
      match m !! key with
      | Some v => Ok v
      | None => Raise (KeyError key)
      end
  | JArr _ => Raise (TypeError "list indices must be integers or slices, not str")
  | JStr _ => Raise (TypeError "string indices must be integers, not 'str'")
  | _ => Raise (TypeError (py_repr_str (type_name data)
                           +:+ " object is not subscriptable"))
  end.

(** [data[key] = v], returning the updated object. *)
Definition py_setitem (data : json) (key : string) (v : json) : result json :=
  match data with
  | JObj m => Ok (JObj (<[key := v]> m))
  | JArr _ => Raise (TypeError "list indices must be integers or slices, not str")
  | _ => Raise (TypeError (py_repr_str (type_name data)
                           +:+ " object does not support item assignment"))
  end.

(** [data.get(key, default)]. *)
Definition py_get (data : json) (key : string) (default : json) : result json :=
  match data with
  | JObj m => Ok (match m !! key with Some v => v | None => default end)
  | _ => Raise (AttributeError (py_repr_str (type_name data)
                                +:+ " object has no attribute 'get'"))
  end.

(** [float(z)] for an [int]: rounds to nearest, and raises where the
    result would not be finite. *)
Definition float_of_int (z : Z) : result float :=
  match f64 z 0 with
  | S754_infinity _ => Raise (OverflowError "int too large to convert to float")
  | f => Ok f
  end.

(** [v > 100]. *)
Definition py_gt_100 (v : json) : result bool :=
  match v with
  | JInt z => Ok (100 <? z)
  | JBool b => Ok (100 <? Z.b2z b)
  | JFloat f => Ok (float_ltb float_100 f)
  | _ => Raise (TypeError ("'>' not supported between instances of "
                           +:+ py_repr_str (type_name v) +:+ " and 'int'"))
  end.

(** The quotient by [10.0] of an operand already converted to [float]. *)
Definition div_10 (x : result float) : result json :=
  match x with
  | Ok f => Ok (JFloat (float_div f float_10))
  | Raise e => Raise e
  end.

(** [v / 10.0]: an [int] or [bool] operand is converted to [float] first. *)
Definition py_div_10 (v : json) : result json :=
  match v with
  | JInt z => div_10 (float_of_int z)
  | JBool b => div_10 (float_of_int (Z.b2z b))
  | JFloat f => div_10 (Ok f)
  | _ => Raise (TypeError ("unsupported operand type(s) for /: "
                           +:+ py_repr_str (type_name v) +:+ " and 'float'"))
  end.

(** ** NumPy reductions over one row of scores

    The scores of an output row are float32 numbers. Every float32 number
    is a binary64 number and [float(...)] converts it without rounding,
    so a row is given here by the binary64 values of its entries, and
    [float(np.max(row))] and [int(np.argmax(row))] by the results of the
    two reductions.

    [np.argmax] gives the first index of the maximum. [np.max] gives the
    maximum by value: it is NaN when the row has a NaN, and otherwise an
    entry of the row that no entry exceeds. Entries that compare equal
    are the same number, except -0.0 and +0.0; when the maximum is zero
    and the row has zeros of both signs, which of the two the vectorised
    reduction returns depends on the build of NumPy and on the layout of
    the row, so that choice is left to the [NumPy] at hand. *)

(** NumPy as the helpers use it: the conversion
    [np.array(_, dtype=np.float32)], and the sign of the zero that
    [np.max] returns for a row whose maximum is zero and which has zeros
    of both signs ([true] for -0.0). *)
Record NumPy := {
  np_array : list json -> result (list float);
  max_zero_sign : list float -> bool
}.

(** The scan of [np.argmax] over a row of floats: [best] and [mp] are the
    index and value of the running maximum, [i] the index of the head of
    [rest]. A NaN is maximal and ends the scan. *)
Fixpoint argmax_scan (best : nat) (mp : float) (i : nat) (rest : list float) : nat :=
  match rest with
  | [] => best
  | x :: rest' =>
      if is_nan mp then best
      else if negb (float_leb x mp) then argmax_scan i x (S i) rest'
      else argmax_scan best mp (S i) rest'
  end.

Definition np_argmax (row : list float) : result Z :=
  match row with
  | [] => Raise (ValueError "attempt to get argmax of an empty sequence")
  | x :: rest => Ok (Z.of_nat (argmax_scan 0 x 1 rest))
  end.

(** The larger of two floats by value; a NaN wins. Of two floats that
    compare equal it keeps the first: this matters for zeros of
    opposite signs only, which [np_max] settles. *)
Definition larger (a b : float) : float :=
  if float_leb b a || is_nan a then a else b.

Definition is_zero (x : float) : bool :=
  match x with S754_zero _ => true | _ => false end.

(** Whether [row] has a zero of sign [s]. *)
Definition has_zero (s : bool) (row : list float) : bool :=
  existsb (fun x => match x with
                    | S754_zero s' => Bool.eqb s s'
                    | _ => false
                    end) row.

(** [np.max(row)]: the largest value of the row; when that is a zero and
    the row has -0.0 and +0.0, the zero that [np] chooses. *)
Definition np_max (np : NumPy) (row : list float) : result float :=
  match row with
  | [] => Raise (ValueError
      "zero-size array to reduction operation maximum which has no identity")
  | x :: rest =>
      let m := fold_left larger rest x in
      Ok (if is_zero m && has_zero true row && has_zero false row
          then S754_zero (max_zero_sign np row)
          else m)
  end.

(** [labels[i]] for an index produced by [np.argmax] (never negative). *)
Definition py_index (labels : list string) (i : Z) : result string :=
  match labels !! Z.to_nat i with
  | Some l => Ok l
  | None => Raise (IndexError "list index out of range")
  end.

(** ** The handler monad *)

(** A call of one of the two prediction helpers, with the feature vector
    it was handed. *)
Inductive call :=
| PredictCrop (input_data : list json)
| PredictSoil (input_data : list json).

(** A computation that may raise, and that extends the log of the calls
    made so far. *)
Definition Py (A : Type) : Type := list call -> result A * list call.

Definition ret {A : Type} (a : A) : Py A := fun log => (Ok a, log).

Definition lift {A : Type} (r : result A) : Py A := fun log => (r, log).
Coercion lift : result >-> Py.

Definition bind {A B : Type} (c : Py A) (k : A -> Py B) : Py B :=
  fun log =>
    match c log with
    | (Ok a, log') => k a log'
    | (Raise e, log') => (Raise e, log')
    end.

Notation "x <- c ;; k" := (bind c (fun x => k))
  (at level 20, c at level 99, k at level 200, only parsing).

(** [try: body except Exception as e: handler e]. *)
Definition try_except {A : Type} (body : Py A) (handler : exn -> Py A) : Py A :=
  fun log =>
    match body log with
    | (Ok a, log') => (Ok a, log')
    | (Raise e, log') => handler e log'
    end.

Definition record (c : call) : Py unit := fun log => (Ok tt, log ++ [c]).

(** ** The external collaborators *)

(** A loaded TensorFlow-Lite interpreter. [get_details] stands for the
    two queries [get_input_details()] and [get_output_details()];
    [run_model] for [set_tensor], [invoke] and [get_tensor(...)[0]] on a
    scaled input: it gives the first row of the output tensor, or the
    exception raised on the way. *)
Record Interpreter := {
  get_details : result unit;
  run_model : list float -> result (list float)
}.

(** A loaded scaler. *)
Record Scaler := { transform : list float -> result (list float) }.

(** The module globals of [app.py] ([None] until [load_models] has set
    them) and the NumPy the module has imported. *)
Record Runtime := {
  numpy : NumPy;
  crop_model : option Interpreter;
  soil_model : option Interpreter;
  crop_scaler : option Scaler;
  soil_scaler : option Scaler
}.

(** A method call [obj.name(...)] on a global that may still be [None]. *)
Definition attr {A : Type} (obj : option A) (name : string) : result A :=
  match obj with
  | Some o => Ok o
  | None => Raise (AttributeError
      ("'NoneType' object has no attribute " +:+ py_repr_str name))
  end.

(** ** The label tables *)

Definition CROP_LABELS : list string :=
  [ "apple"; "banana"; "blackgram"; "chickpea"; "coconut"; "coffee";
    "cotton"; "grapes"; "jute"; "kidneybeans"; "lentil"; "maize";
    "mango"; "mothbeans"; "mungbean"; "muskmelon"; "orange"; "papaya";
    "pigeonpeas"; "pomegranate"; "rice"; "watermelon" ].

Definition SOIL_CLASSES : list string := [ "Low"; "Mild"; "High" ].

(** ** HTTP responses *)

Record response := { body : json; status : Z }.

(** [jsonify(obj), code]; a handler that returns [jsonify(obj)] alone
    answers with code 200. *)
Definition jsonify (obj : json) (code : Z) : response :=
  {| body := obj; status := code |}.

(** A list display [[data[k1], data[k2], ...]], evaluated left to right. *)
Fixpoint py_getitems (data : json) (keys : list string) : result (list json) :=
  match keys with
  | [] => Ok []
  | k :: rest =>
      match py_getitem data k with
      | Ok v =>
          match py_getitems data rest with
          | Ok vs => Ok (v :: vs)
          | Raise e => Raise e
          end
      | Raise e => Raise e
      end
  end.

(** [a and b], where [b] is evaluated only if [a] is true. *)
Definition py_and (a b : result bool) : result bool :=
  match a with
  | Ok true => b
  | _ => a
  end.

Definition py_not (a : result bool) : result bool :=
  match a with
  | Ok b => Ok (negb b)
  | Raise e => Raise e
  end.

Section App.

Variable rt : Runtime.

(** ** [predict_crop] and [predict_soil]

    The first step of each helper notes the call and its argument in the
    log; it has no counterpart in the source and cannot raise. The rest
    is the [try] block and its [except] clause. *)

Definition predict_crop (input_data : list json) : Py json :=
  _ <- record (PredictCrop input_data) ;;
  try_except
    (model <- attr (crop_model rt) "get_input_details" ;;
     _ <- get_details model ;;
     input_array <- np_array (numpy rt) input_data ;;
     scaler <- attr (crop_scaler rt) "transform" ;;
     scaled_input <- transform scaler input_array ;;
     output <- run_model model scaled_input ;;
     predicted_class <- np_argmax output ;;
     confidence <- np_max (numpy rt) output ;;
     label <- py_index CROP_LABELS predicted_class ;;
     ret (JObj {[ "predicted_crop" := JStr label;
                  "confidence" := JFloat confidence;
                  "class_index" := JInt predicted_class ]}))
    (fun e => ret (JObj {[ "error" := JStr (str_exn e) ]})).

Definition predict_soil (input_data : list json) : Py json :=
  _ <- record (PredictSoil input_data) ;;
  try_except
    (model <- attr (soil_model rt) "get_input_details" ;;
     _ <- get_details model ;;
     input_array <- np_array (numpy rt) input_data ;;
     scaler <- attr (soil_scaler rt) "transform" ;;
     scaled_input <- transform scaler input_array ;;
     output <- run_model model scaled_input ;;
     predicted_class <- np_argmax output ;;
     confidence <- np_max (numpy rt) output ;;
     label <- py_index SOIL_CLASSES predicted_class ;;
     ret (JObj {[ "predicted_fertility" := JStr label;
                  "confidence" := JFloat confidence;
                  "class_index" := JInt predicted_class ]}))
    (fun e => ret (JObj {[ "error" := JStr (str_exn e) ]})).

(** ** The request handlers

    Each handler takes the outcome of [request.get_json()]: the parsed
    body, or the exception Flask raised for a body it could not parse. *)

Definition predict_crop_endpoint (get_json : result json) : Py response :=
  try_except
    (data <- get_json ;;
     let required_fields :=
       ["N"; "P"; "K"; "temperature"; "humidity"; "ph"; "rainfall"] in
     complete <- py_all_in required_fields data ;;
     if negb complete then
       ret (jsonify (JObj {[ "error" := JStr ("Missing required fields: "
                               +:+ py_repr_list required_fields) ]}) 400)
     else
       input_features <- py_getitems data
         ["N"; "P"; "K"; "temperature"; "humidity"; "ph"; "rainfall"] ;;
       result <- predict_crop input_features ;;
       failed <- py_in "error" result ;;
       if failed then ret (jsonify result 500)
       else
         ret (jsonify (JObj {[ "success" := JBool true;
                               "prediction" := result;
                               "input_data" := data ]}) 200))
    (fun e => ret (jsonify (JObj {[ "error" := JStr (str_exn e) ]}) 500)).

Definition predict_soil_endpoint (get_json : result json) : Py response :=
  try_except
    (data <- get_json ;;
     let required_fields := ["N"; "P"; "K"; "pH"] in
     complete <- py_all_in required_fields data ;;
     if negb complete then
       ret (jsonify (JObj {[ "error" := JStr ("Missing required fields: "
                               +:+ py_repr_list required_fields) ]}) 400)
     else
       input_features <- py_getitems data ["N"; "P"; "K"; "pH"] ;;
       result <- predict_soil input_features ;;
       failed <- py_in "error" result ;;
       if failed then ret (jsonify result 500)
       else
         ret (jsonify (JObj {[ "success" := JBool true;
                               "prediction" := result;
                               "input_data" := data ]}) 200))
    (fun e => ret (jsonify (JObj {[ "error" := JStr (str_exn e) ]}) 500)).

(** The [if]/[elif] of [predict_combined_endpoint] that copies the pH
    found under one of the keys ["pH"] and ["ph"] to the other one; it
    updates [data] in place, so the updated object is what the rest of
    the handler sees and echoes. *)
Definition reconcile_ph (data : json) : result json :=
  match py_and (py_in "pH" data) (py_not (py_in "ph" data)) with
  | Ok true =>
      match py_getitem data "pH" with
      | Ok v => py_setitem data "ph" v
      | Raise e => Raise e
      end
  | Ok false =>
      match py_and (py_in "ph" data) (py_not (py_in "pH" data)) with
      | Ok true =>
          match py_getitem data "ph" with
          | Ok v => py_setitem data "pH" v
          | Raise e => Raise e
          end
      | Ok false => Ok data
      | Raise e => Raise e
      end
  | Raise e => Raise e
  end.

Definition predict_combined_endpoint (get_json : result json) : Py response :=
  try_except
    (data <- get_json ;;
     let crop_fields :=
       ["N"; "P"; "K"; "temperature"; "humidity"; "ph"; "rainfall"] in
     let soil_fields := ["N"; "P"; "K"; "pH"] in
     data <- reconcile_ph data ;;
     crop_complete <- py_all_in crop_fields data ;;
     if negb crop_complete then
       ret (jsonify (JObj {[ "error" := JStr ("Missing crop fields: "
                               +:+ py_repr_list crop_fields) ]}) 400)
     else
       soil_complete <- py_all_in soil_fields data ;;
       if negb soil_complete then
         ret (jsonify (JObj {[ "error" := JStr ("Missing soil fields: "
                                 +:+ py_repr_list soil_fields) ]}) 400)
       else
         crop_features <- py_getitems data
           ["N"; "P"; "K"; "temperature"; "humidity"; "ph"; "rainfall"] ;;
         crop_result <- predict_crop crop_features ;;
         soil_features <- py_getitems data ["N"; "P"; "K"; "pH"] ;;
         soil_result <- predict_soil soil_features ;;
         ret (jsonify (JObj {[ "success" := JBool true;
                               "crop_prediction" := crop_result;
                               "soil_prediction" := soil_result;
                               "input_data" := data ]}) 200))
    (fun e => ret (jsonify (JObj {[ "error" := JStr (str_exn e) ]}) 500)).

(** Lines 266-268 of [process_sensor_data]: the pH read from the sensor
    field, divided by 10.0 when it is greater than 100. *)
Definition sensor_ph (data : json) : result json :=
  match py_get data "soilPH" (JFloat float_6_5) with
  | Ok ph_value =>
      match py_gt_100 ph_value with
      | Ok true => py_div_10 ph_value
      | Ok false => Ok ph_value
      | Raise e => Raise e
      end
  | Raise e => Raise e
  end.

Definition process_sensor_data (get_json : result json) : Py response :=
  try_except
    (data <- get_json ;;
     ph_value <- sensor_ph data ;;
     nitrogen <- py_get data "nitrogen" (JInt 0) ;;
     phosphorus <- py_get data "phosphorus" (JInt 0) ;;
     potassium <- py_get data "potassium" (JInt 0) ;;
     temperature <- py_get data "temperature" (JFloat float_25) ;;
     humidity <- py_get data "humidity" (JFloat float_60) ;;
     rainfall <- py_get data "rainfall" (JFloat float_100) ;;
     let prediction_data :=
       JObj {[ "N" := nitrogen; "P" := phosphorus; "K" := potassium;
               "pH" := ph_value; "ph" := ph_value;
               "temperature" := temperature; "humidity" := humidity;
               "rainfall" := rainfall ]} in
     crop_features <- py_getitems prediction_data
       ["N"; "P"; "K"; "temperature"; "humidity"; "ph"; "rainfall"] ;;
     crop_result <- predict_crop crop_features ;;
     soil_features <- py_getitems prediction_data ["N"; "P"; "K"; "pH"] ;;
     soil_result <- predict_soil soil_features ;;
     ret (jsonify (JObj {[ "success" := JBool true;
                           "sensor_data" := data;
                           "recommendations" :=
                             JObj {[ "crop" := crop_result;
                                     "soil_fertility" := soil_result ]};
                           "processed_values" := prediction_data ]}) 200))
    (fun e => ret (jsonify (JObj {[ "error" := JStr (str_exn e) ]}) 500)).

End App.

(** ** Vocabulary of the properties *)

(** The two models, and one entry point for their helpers. *)
Inductive model_id := CropModel | SoilModel.

Definition predict (rt : Runtime) (k : model_id) : list json -> Py json :=
  match k with
  | CropModel => predict_crop rt
  | SoilModel => predict_soil rt
  end.

Definition call_of (k : model_id) (input_data : list json) : call :=
  match k with
  | CropModel => PredictCrop input_data
  | SoilModel => PredictSoil input_data
  end.

Definition labels_of (k : model_id) : list string :=
  match k with
  | CropModel => CROP_LABELS
  | SoilModel => SOIL_CLASSES
  end.

Definition label_key (k : model_id) : string :=
  match k with
  | CropModel => "predicted_crop"
  | SoilModel => "predicted_fertility"
  end.

Definition model_of (rt : Runtime) (k : model_id) : option Interpreter :=
  match k with
  | CropModel => crop_model rt
  | SoilModel => soil_model rt
  end.

Definition scaler_of (rt : Runtime) (k : model_id) : option Scaler :=
  match k with
  | CropModel => crop_scaler rt
  | SoilModel => soil_scaler rt
  end.

(** The number of entries of a model's output distribution. *)
Definition num_classes (k : model_id) : nat :=
  match k with
  | CropModel => 22
  | SoilModel => 3
  end.

(** The confidence distribution that model [k] gives for [input_data]:
    the first lines of the [try] block of its helper, up to
    [get_tensor(...)]. *)
Definition model_output (rt : Runtime) (k : model_id) (input_data : list json)
    : result (list float) :=
  match attr (model_of rt k) "get_input_details" with
  | Ok model =>
      match get_details model with
      | Ok _ =>
          match np_array (numpy rt) input_data with
          | Ok input_array =>
              match attr (scaler_of rt k) "transform" with
              | Ok scaler =>
                  match transform scaler input_array with
                  | Ok scaled_input => run_model model scaled_input
                  | Raise e => Raise e
                  end
              | Raise e => Raise e
              end
          | Raise e => Raise e
          end
      | Raise e => Raise e
      end
  | Raise e => Raise e
  end.

(** The object a helper returns for a prediction, and for a failure. *)
Definition prediction_object (k : model_id) (label : string) (confidence : float)
    (class_index : Z) : json :=
  JObj {[ label_key k := JStr label;
          "confidence" := JFloat confidence;
          "class_index" := JInt class_index ]}.

Definition error_object (msg : string) : json :=
  JObj {[ "error" := JStr msg ]}.

(** The last lines of the [try] block of a helper: from the output row
    to the returned object. *)
Definition assemble (rt : Runtime) (k : model_id) (output : list float)
    : result json :=
  match np_argmax output with
  | Ok predicted_class =>
      match np_max (numpy rt) output with
      | Ok confidence =>
          match py_index (labels_of k) predicted_class with
          | Ok label =>
              Ok (prediction_object k label confidence predicted_class)
          | Raise e => Raise e
          end
      | Raise e => Raise e
      end
  | Raise e => Raise e
  end.

(** The object a helper returns, given how its [try] block ended. *)
Definition reply (rt : Runtime) (k : model_id) (output : result (list float))
    : json :=
  match output with
  | Ok row =>
      match assemble rt k row with
      | Ok obj => obj
      | Raise e => error_object (str_exn e)
      end
  | Raise e => error_object (str_exn e)
  end.

(** [obj[key]] for an object, when the key is there. *)
Definition field (obj : json) (key : string) : option json :=
  match obj with
  | JObj m => m !! key
  | _ => None
  end.

(** Two floats are the same number: they are identical, or they are two
    zeros (which differ by their sign at most). *)
Definition same_number (a c : float) : Prop :=
  a = c \/ (is_zero a = true /\ is_zero c = true).

(** [c] is an entry of [row] and the same number as entry [i]; no entry
    is above it; every entry before [i] is a number strictly below it.
    A NaN entry counts as the maximum, as in NumPy: then [c] is NaN,
    entry [i] is the first NaN of the row. *)
Definition first_maximum (row : list float) (i : nat) (c : float) : Prop :=
  (exists entry, row !! i = Some entry /\ same_number entry c) /\
  c ∈ row /\
  (is_nan c = true \/ forall y, y ∈ row -> float_leb y c = true) /\
  (forall y, y ∈ row -> float_ltb c y = false) /\
  (forall j y, (j < i)%nat -> row !! j = Some y ->
     float_leb c y = false /\ is_nan y = false).

(** The field names of the two validations. *)
Definition crop_fields : list string :=
  ["N"; "P"; "K"; "temperature"; "humidity"; "ph"; "rainfall"].

Definition soil_fields : list string := ["N"; "P"; "K"; "pH"].

(** An error message names a field when the field's quoted name occurs
    in it. *)
Definition error_names (msg field_name : string) : bool :=
  bool_decide (is_Some (String.index 0 (py_repr_str field_name) msg)).

(** The reading of the specification under which the error object of a
    failed validation names the absent fields and no others. *)
Definition names_exactly_the_absent (msg : string) (m : gmap string json)
    (required : list string) : Prop :=
  forall f, f ∈ required -> (error_names msg f = true <-> m !! f = None).




(** ** Runtimes and payloads for the examples *)

(** The service after a failed [load_models]: every global is [None]. *)
Definition unloaded : Runtime :=
  {| numpy := {| np_array := fun _ =>
                   Raise (ExternalError "np.array is never reached");
                 max_zero_sign := fun _ => false |};
     crop_model := None; soil_model := None;
     crop_scaler := None; soil_scaler := None |}.

(** A loaded service whose two models answer with a fixed row of scores,
    whatever the input. *)
Definition fixed_model (row : list float) : Interpreter :=
  {| get_details := Ok tt; run_model := fun _ => Ok row |}.

Definition identity_scaler : Scaler := {| transform := fun x => Ok x |}.

Definition soil_scores : list float := [f64 1 (-2); f64 1 (-3); f64 5 (-3)].

Definition crop_scores : list float :=
  replicate 20 (f64 1 (-5)) ++ [f64 3 (-3); f64 1 (-5)].

Definition stub : Runtime :=
  {| numpy := {| np_array := fun input_data =>
                   Ok (replicate (length input_data) (f64 0 0));
                 max_zero_sign := fun _ => false |};
     crop_model := Some (fixed_model crop_scores);
     soil_model := Some (fixed_model soil_scores);
     crop_scaler := Some identity_scaler;
     soil_scaler := Some identity_scaler |}.

(** The example request of the docstring of [predict_crop_endpoint]
    (20.9 and 202.9 are written as the nearest binary64 numbers). *)
Definition crop_payload : gmap string json :=
  {[ "N" := JInt 90; "P" := JInt 42; "K" := JInt 43;
     "temperature" := JFloat (f64 5882827013252710 (-48));
     "humidity" := JFloat (f64 82 0);
     "ph" := JFloat float_6_5;
     "rainfall" := JFloat (f64 7138909096824013 (-45)) ]}.

(** ** [load_models], the start of the service, [home] and the routes *)

(** What [load_models] reads from the disk: the constructor
    [tf.lite.Interpreter(model_path=...)], the method [allocate_tensors()]
    (it prepares the interpreter it is called on, which is given back
    here) and [joblib.load(...)]. *)
Record Artifacts := {
  new_interpreter : string -> result Interpreter;
  allocate_tensors : Interpreter -> result Interpreter;
  joblib_load : string -> result Scaler
}.

(** Assignments to the four module globals. *)
Definition set_crop_model (rt : Runtime) (v : option Interpreter) : Runtime :=
  {| numpy := numpy rt; crop_model := v; soil_model := soil_model rt;
     crop_scaler := crop_scaler rt; soil_scaler := soil_scaler rt |}.

Definition set_soil_model (rt : Runtime) (v : option Interpreter) : Runtime :=
  {| numpy := numpy rt; crop_model := crop_model rt; soil_model := v;
     crop_scaler := crop_scaler rt; soil_scaler := soil_scaler rt |}.

Definition set_crop_scaler (rt : Runtime) (v : option Scaler) : Runtime :=
  {| numpy := numpy rt; crop_model := crop_model rt;
     soil_model := soil_model rt; crop_scaler := v;
     soil_scaler := soil_scaler rt |}.

Definition set_soil_scaler (rt : Runtime) (v : option Scaler) : Runtime :=
  {| numpy := numpy rt; crop_model := crop_model rt;
     soil_model := soil_model rt; crop_scaler := crop_scaler rt;
     soil_scaler := v |}.

(** The module as imported: every global is [None]. *)
Definition module_globals (np : NumPy) : Runtime :=
  {| numpy := np; crop_model := None; soil_model := None;
     crop_scaler := None; soil_scaler := None |}.

(** One statement of the [try] block of [load_models]: its exception,
    if any, ends the block with the globals as they are by then. *)
Definition and_then {A : Type} (r : result A) (rt : Runtime)
    (k : A -> result unit * Runtime) : result unit * Runtime :=
  match r with
  | Ok a => k a
  | Raise e => (Raise e, rt)
  end.

(** The [try] block of [load_models], up to its [print]. Each global is
    assigned as soon as its object is there. *)
Definition load_models_body (fs : Artifacts) (rt : Runtime)
    : result unit * Runtime :=
  and_then (new_interpreter fs "crop_model.tflite") rt (fun m =>
  let rt := set_crop_model rt (Some m) in
  and_then (allocate_tensors fs m) rt (fun m =>
  let rt := set_crop_model rt (Some m) in
  and_then (new_interpreter fs "soil_model.tflite") rt (fun m =>
  let rt := set_soil_model rt (Some m) in
  and_then (allocate_tensors fs m) rt (fun m =>
  let rt := set_soil_model rt (Some m) in
  and_then (joblib_load fs "crop_scaler.pkl") rt (fun sc =>
  let rt := set_crop_scaler rt (Some sc) in
  and_then (joblib_load fs "soil_scaler.pkl") rt (fun sc =>
  let rt := set_soil_scaler rt (Some sc) in
  (Ok tt, rt))))))).

(** [load_models()]: the returned flag, the lines printed, and the
    globals afterwards. *)
Definition load_models (fs : Artifacts) (rt : Runtime)
    : bool * list string * Runtime :=
  match load_models_body fs rt with
  | (Ok _, rt') => (true, ["? Models and scalers loaded successfully"], rt')
  | (Raise e, rt') =>
      (false, ["? Error loading models: " +:+ str_exn e], rt')
  end.


(** The listing of [home]. *)
Definition home_endpoints : gmap string json :=
  {[ "crop_prediction" := JStr "/predict/crop";
     "soil_prediction" := JStr "/predict/soil";
     "combined_prediction" := JStr "/predict/combined" ]}.

Definition home : response :=
  jsonify (JObj {[ "status" := JStr "API is running";
                   "endpoints" := JObj home_endpoints ]}) 200.

(** The [@app.route] decorators: rule, methods and view function. *)
Inductive view :=
| Home | CropEndpoint | SoilEndpoint | CombinedEndpoint | SensorData.

Definition url_map : list (string * list string * view) :=
  [ ("/", ["GET"], Home);
    ("/predict/crop", ["POST"], CropEndpoint);
    ("/predict/soil", ["POST"], SoilEndpoint);
    ("/predict/combined", ["POST"], CombinedEndpoint);
    ("/sensor-data", ["POST"], SensorData) ].

(** The view function of a route, run on the outcome of
    [request.get_json()] ([home] does not read the request). *)
Definition run_view (rt : Runtime) (v : view) (get_json : result json)
    : Py response :=
  match v with
  | Home => ret home
  | CropEndpoint => predict_crop_endpoint rt get_json
  | SoilEndpoint => predict_soil_endpoint rt get_json
  | CombinedEndpoint => predict_combined_endpoint rt get_json
  | SensorData => process_sensor_data rt get_json
  end.

(** The single-model endpoint of a model, and the fields it requires. *)
Definition endpoint (rt : Runtime) (k : model_id) : result json -> Py response :=
  match k with
  | CropModel => predict_crop_endpoint rt
  | SoilModel => predict_soil_endpoint rt
  end.

Definition fields_of (k : model_id) : list string :=
  match k with
  | CropModel => crop_fields
  | SoilModel => soil_fields
  end.

(** The helper calls one request to a view may make. *)
Definition calls_allowed (v : view) (calls : list call) : Prop :=
  match v with
  | Home => calls = []
  | CropEndpoint => calls = [] \/ exists x, calls = [PredictCrop x]
  | SoilEndpoint => calls = [] \/ exists x, calls = [PredictSoil x]
  | CombinedEndpoint | SensorData =>
      calls = [] \/ exists x y, calls = [PredictCrop x; PredictSoil y]
  end.


(** A body on which [in] raises: neither a dict, a list nor a string. *)
Definition not_a_container (data : json) : Prop :=
  match data with
  | JNull | JBool _ | JInt _ | JFloat _ => True
  | _ => False
  end.

(** A value that [>] does not compare with an [int]. *)
Definition not_a_number (v : json) : Prop :=
  match v with
  | JNull | JStr _ | JArr _ | JObj _ => True
  | _ => False
  end.

(** Artifacts for the examples: every file loads; the crop files load
    and the soil model does not. *)
Definition all_files : Artifacts :=
  {| new_interpreter := fun path =>
       if String.eqb path "crop_model.tflite"
       then Ok (fixed_model crop_scores) else Ok (fixed_model soil_scores);
     allocate_tensors := fun m => Ok m;
     joblib_load := fun _ => Ok identity_scaler |}.

Definition soil_model_missing : Artifacts :=
  {| new_interpreter := fun path =>
       if String.eqb path "crop_model.tflite"
       then Ok (fixed_model crop_scores)
       else Raise (ValueError "Could not open 'soil_model.tflite'.");
     allocate_tensors := fun m => Ok m;
     joblib_load := fun _ => Ok identity_scaler |}.

(** * Properties *)

(** ** The order of binary64 numbers *)

Ltac compare_cases :=
  repeat match goal with
         | H : context [Z.compare ?a ?b] |- _ =>
             destruct (Z.compare_spec a b); simpl in H
         | |- context [Z.compare ?a ?b] =>
             destruct (Z.compare_spec a b); simpl
         | H : context [Pos.compare_cont Eq ?a ?b] |- _ =>
             change (Pos.compare_cont Eq a b) with (Pos.compare a b) in H;
             destruct (Pos.compare_spec a b); simpl in H
         | |- context [Pos.compare_cont Eq ?a ?b] =>
             change (Pos.compare_cont Eq a b) with (Pos.compare a b);
             destruct (Pos.compare_spec a b); simpl
         end;
  try congruence; try lia.

Ltac float_order :=
  unfold float_leb, float_ltb, SFleb, SFltb, SFcompare, is_nan;
  repeat match goal with
         | x : spec_float |- _ => destruct x as [[]|[]| |[] ? ?]
         end;
  intros; try congruence; compare_cases.

Lemma float_leb_new_maximum x m y :
  float_leb y m = true -> float_leb x m = false -> is_nan x = false ->
  float_leb y x = true.
Proof. float_order. Qed.

Lemma float_new_maximum_strict x m y :
  float_leb y m = true -> float_leb x m = false -> is_nan x = false ->
  float_leb x y = false.
Proof. float_order. Qed.

Lemma float_leb_refl x : is_nan x = false -> float_leb x x = true.
Proof.
  unfold float_leb, SFleb, SFcompare, is_nan.
  destruct x as [[]|[]| |[] m e]; intros; try congruence;
    rewrite ?Z.compare_refl; change (Pos.compare_cont Eq m m) with (Pos.compare m m);
    rewrite Pos.compare_refl; reflexivity.
Qed.

Lemma float_leb_not_ltb x y : float_leb x y = true -> float_ltb y x = false.
Proof. float_order. Qed.

Lemma float_leb_nan_r x y : float_leb x y = true -> is_nan y = false.
Proof. unfold float_leb, SFleb, SFcompare, is_nan. destruct x, y; simpl; congruence. Qed.

Lemma float_ltb_nan_l x y : is_nan x = true -> float_ltb x y = false.
Proof. destruct x; simpl; try congruence. reflexivity. Qed.

(** ** [np.argmax] and [np.max] *)

Lemma larger_nan a b : is_nan a = true -> larger a b = a.
Proof. unfold larger. intros ->. now rewrite orb_true_r. Qed.

Lemma fold_maximum_nan rest mp :
  is_nan mp = true -> fold_left larger rest mp = mp.
Proof.
  induction rest as [|x rest IH]; intros Hnan; simpl; [reflexivity|].
  rewrite larger_nan by assumption. now apply IH.
Qed.

(** One step of the two reductions, side by side. *)
Lemma scan_step best mp i x rest :
  is_nan mp = false ->
  argmax_scan best mp i (x :: rest) =
    (if float_leb x mp then argmax_scan best mp (S i) rest
     else argmax_scan i x (S i) rest)
  /\ larger mp x = (if float_leb x mp then mp else x).
Proof.
  intros Hnan. unfold larger. simpl. rewrite Hnan, orb_false_r.
  destruct (float_leb x mp); auto.
Qed.

Lemma argmax_scan_lookup (row rest : list float) best mp i :
  row !! best = Some mp ->
  (forall k, rest !! k = row !! (i + k)%nat) ->
  row !! argmax_scan best mp i rest = Some (fold_left larger rest mp).
Proof.
  revert best mp i. induction rest as [|x rest IH]; intros best mp i Hbest Hrest.
  - exact Hbest.
  - destruct (is_nan mp) eqn:Hnan.
    + rewrite fold_maximum_nan by assumption. simpl. now rewrite Hnan.
    + destruct (scan_step best mp i x rest Hnan) as [-> Hmax].
      cbn [fold_left]. rewrite Hmax.
      assert (Hx : row !! i = Some x).
      { specialize (Hrest 0%nat). rewrite Nat.add_0_r in Hrest. now rewrite <- Hrest. }
      assert (Hrest' : forall k, rest !! k = row !! (S i + k)%nat).
      { intros k. specialize (Hrest (S k)). rewrite Nat.add_succ_r in Hrest.
        exact Hrest. }
      destruct (float_leb x mp); apply IH; auto.
Qed.

Lemma argmax_scan_bound (rest : list float) best mp i :
  (best < i)%nat -> (argmax_scan best mp i rest < i + length rest)%nat.
Proof.
  revert best mp i. induction rest as [|x rest IH]; intros best mp i Hlt; simpl.
  - lia.
  - destruct (is_nan mp); [lia|].
    destruct (float_leb x mp); simpl.
    + specialize (IH best mp (S i)). lia.
    + specialize (IH i x (S i)). lia.
Qed.

Lemma fold_maximum_upper (rest seen : list float) mp :
  is_nan mp = true \/ (forall y, y ∈ seen -> float_leb y mp = true) ->
  is_nan (fold_left larger rest mp) = true \/
  (forall y, y ∈ seen ++ rest -> float_leb y (fold_left larger rest mp) = true).
Proof.
  revert seen mp. induction rest as [|x rest IH]; intros seen mp Hinv.
  - simpl. rewrite app_nil_r. exact Hinv.
  - destruct (is_nan mp) eqn:Hnan.
    + left. now rewrite fold_maximum_nan.
    + destruct Hinv as [Hinv|Hinv]; [congruence|].
      destruct (scan_step 0%nat mp 0%nat x rest Hnan) as [_ Hmax].
      cbn [fold_left]. rewrite Hmax.
      replace (seen ++ x :: rest) with ((seen ++ [x]) ++ rest)
        by now rewrite <- app_assoc.
      apply IH. destruct (float_leb x mp) eqn:Hle.
      * right. intros y [Hy|Hy%list_elem_of_singleton]%elem_of_app; subst; auto.
      * destruct (is_nan x) eqn:Hx; [now left|right].
        intros y [Hy|Hy%list_elem_of_singleton]%elem_of_app; subst.
        -- eapply float_leb_new_maximum; eauto.
        -- now apply float_leb_refl.
Qed.

Lemma argmax_scan_first (row rest : list float) best mp i :
  row !! best = Some mp ->
  (forall k, rest !! k = row !! (i + k)%nat) ->
  (best < i)%nat ->
  (forall j y, (j < best)%nat -> row !! j = Some y -> float_leb mp y = false) ->
  is_nan mp = true \/
    (forall j y, (j < i)%nat -> row !! j = Some y -> float_leb y mp = true) ->
  forall j y, (j < argmax_scan best mp i rest)%nat -> row !! j = Some y ->
    float_leb (fold_left larger rest mp) y = false.
Proof.
  revert best mp i. induction rest as [|x rest IH];
    intros best mp i Hbest Hrest Hlt Hbefore Hseen.
  - exact Hbefore.
  - destruct (is_nan mp) eqn:Hnan.
    + rewrite fold_maximum_nan by assumption. simpl. rewrite Hnan. exact Hbefore.
    + destruct Hseen as [Hseen|Hseen]; [congruence|].
      destruct (scan_step best mp i x rest Hnan) as [-> Hmax].
      cbn [fold_left]. rewrite Hmax.
      assert (Hx : row !! i = Some x).
      { specialize (Hrest 0%nat). rewrite Nat.add_0_r in Hrest. now rewrite <- Hrest. }
      assert (Hrest' : forall k, rest !! k = row !! (S i + k)%nat).
      { intros k. specialize (Hrest (S k)). rewrite Nat.add_succ_r in Hrest.
        exact Hrest. }
      destruct (float_leb x mp) eqn:Hle.
      * apply IH; auto. right. intros j y Hj Hy.
        destruct (decide (j = i)) as [->|]; [congruence|].
        apply (Hseen j); [lia|auto].
      * destruct (is_nan x) eqn:Hnx.
        -- apply IH; auto.
           intros j y _ _. destruct x; simpl in Hnx; try congruence. reflexivity.
        -- apply IH; auto.
           ++ intros j y Hj Hy.
              apply (float_new_maximum_strict x mp y); auto. apply (Hseen j); [lia|auto].
           ++ right. intros j y Hj Hy.
              destruct (decide (j = i)) as [->|].
              ** replace y with x by congruence. now apply float_leb_refl.
              ** apply (float_leb_new_maximum x mp y); auto.
                 apply (Hseen j); [lia|auto].
Qed.

Lemma float_leb_nan_l x y : float_leb x y = true -> is_nan x = false.
Proof. unfold float_leb, SFleb, SFcompare, is_nan. destruct x, y; simpl; congruence. Qed.

Lemma argmax_scan_before_not_nan (row rest : list float) best mp i :
  row !! best = Some mp ->
  (forall k, rest !! k = row !! (i + k)%nat) ->
  (best < i)%nat ->
  (forall j y, (j < best)%nat -> row !! j = Some y -> is_nan y = false) ->
  (is_nan mp = false ->
   forall j y, (j < i)%nat -> row !! j = Some y -> is_nan y = false) ->
  forall j y, (j < argmax_scan best mp i rest)%nat -> row !! j = Some y ->
    is_nan y = false.
Proof.
  revert best mp i. induction rest as [|x rest IH];
    intros best mp i Hbest Hrest Hlt Hbefore Hseen.
  - exact Hbefore.
  - destruct (is_nan mp) eqn:Hnan.
    + simpl. rewrite Hnan. exact Hbefore.
    + specialize (Hseen eq_refl).
      destruct (scan_step best mp i x rest Hnan) as [-> _].
      assert (Hx : row !! i = Some x).
      { specialize (Hrest 0%nat). rewrite Nat.add_0_r in Hrest. now rewrite <- Hrest. }
      assert (Hrest' : forall k, rest !! k = row !! (S i + k)%nat).
      { intros k. specialize (Hrest (S k)). rewrite Nat.add_succ_r in Hrest.
        exact Hrest. }
      destruct (float_leb x mp) eqn:Hle.
      * apply IH; auto. intros _ j y Hj Hy.
        destruct (decide (j = i)) as [->|].
        -- replace y with x by congruence. now apply float_leb_nan_l in Hle.
        -- apply (Hseen j); [lia|auto].
      * apply IH; auto. intros Hnx j y Hj Hy.
        destruct (decide (j = i)) as [->|].
        -- congruence.
        -- apply (Hseen j); [lia|auto].
Qed.

Lemma scalar_reductions (x : float) (rest : list float) :
  let i := argmax_scan 0 x 1 rest in
  let m := fold_left larger rest x in
  (i < length (x :: rest))%nat /\
  (x :: rest) !! i = Some m /\
  (is_nan m = true \/ forall y, y ∈ x :: rest -> float_leb y m = true) /\
  (forall y, y ∈ x :: rest -> float_ltb m y = false) /\
  (forall j y, (j < i)%nat -> (x :: rest) !! j = Some y ->
     float_leb m y = false /\ is_nan y = false).
Proof.
  intros i m. unfold i, m.
  assert (Hrest : forall k, rest !! k = (x :: rest) !! (1 + k)%nat) by reflexivity.
  assert (Hupper : is_nan (fold_left larger rest x) = true \/
            (forall y, y ∈ x :: rest ->
               float_leb y (fold_left larger rest x) = true)).
  { apply (fold_maximum_upper rest [x] x).
    destruct (is_nan x) eqn:Hnan; [now left|right].
    intros y ->%list_elem_of_singleton. now apply float_leb_refl. }
  split; [|split; [|split; [|split]]].
  - pose proof (argmax_scan_bound rest 0 x 1). simpl. lia.
  - now apply argmax_scan_lookup.
  - exact Hupper.
  - intros y Hy. destruct Hupper as [Hnan|Hle].
    + now apply float_ltb_nan_l.
    + now apply float_leb_not_ltb, Hle.
  - intros j y Hj Hy. split.
    + revert j y Hj Hy.
      apply argmax_scan_first; auto; try lia; try (intros ? ? ?; lia).
      destruct (is_nan x) eqn:Hnan; [now left|right].
      intros j y Hj Hy. assert (j = 0%nat) as -> by lia.
      injection Hy as <-. now apply float_leb_refl.
    + revert j y Hj Hy.
      apply argmax_scan_before_not_nan; auto; try lia; try (intros ? ? ?; lia).
      intros Hnan j y Hj Hy. assert (j = 0%nat) as -> by lia.
      injection Hy as <-. exact Hnan.
Qed.

(** The order does not see the sign of a zero. *)
Lemma zero_order a c y :
  is_zero a = true -> is_zero c = true ->
  float_leb y a = float_leb y c /\
  float_leb a y = float_leb c y /\
  float_ltb a y = float_ltb c y.
Proof.
  destruct a; try discriminate. destruct c; try discriminate.
  intros _ _. destruct y; repeat split.
Qed.

Lemma has_zero_elem s (row : list float) :
  has_zero s row = true -> S754_zero s ∈ row.
Proof.
  unfold has_zero. rewrite existsb_exists. intros (x & Hx & Hs).
  apply list_elem_of_In in Hx. destruct x as [s'| | |]; try discriminate.
  apply Bool.eqb_prop in Hs. now subst.
Qed.

Lemma np_reductions (np : NumPy) (row : list float) :
  row <> [] ->
  exists i c,
    np_argmax row = Ok (Z.of_nat i) /\ np_max np row = Ok c /\
    (i < length row)%nat /\ first_maximum row i c.
Proof.
  destruct row as [|x rest]; [congruence|intros _].
  destruct (scalar_reductions x rest) as (Hlt & Hlookup & Hupper & Hltb & Hfirst).
  set (i := argmax_scan 0 x 1 rest) in *.
  set (m := fold_left larger rest x) in *.
  exists i. unfold np_argmax, np_max. fold m.
  destruct (is_zero m && has_zero true (x :: rest) && has_zero false (x :: rest))
    eqn:Hties.
  - apply andb_prop in Hties as [Hties Hpos]. apply andb_prop in Hties as [Hzero Hneg].
    set (c := S754_zero (max_zero_sign np (x :: rest))).
    assert (Hc : is_zero c = true) by reflexivity.
    exists c. split; [reflexivity|]. split; [reflexivity|]. split; [exact Hlt|].
    unfold first_maximum. split; [|split; [|split; [|split]]].
    + exists m. split; [exact Hlookup|]. right. auto.
    + unfold c. destruct (max_zero_sign np (x :: rest)); now apply has_zero_elem.
    + right. intros y Hy. destruct (zero_order m c y Hzero Hc) as (<- & _ & _).
      destruct Hupper as [Hnan|Hle]; [|now apply Hle].
      destruct m; discriminate.
    + intros y Hy. destruct (zero_order m c y Hzero Hc) as (_ & _ & <-). now apply Hltb.
    + intros j y Hj Hy. destruct (zero_order m c y Hzero Hc) as (_ & <- & _).
      now apply (Hfirst j).
  - exists m. split; [reflexivity|]. split; [reflexivity|]. split; [exact Hlt|].
    unfold first_maximum. split; [|split; [|split; [|split]]]; auto.
    + exists m. split; [exact Hlookup|]. now left.
    + now apply list_elem_of_lookup_2 with i.
Qed.

(** On the row [-1.0, -0.0, 0.0] the first maximum is at index 1, where
    the row has -0.0, and [np.max] gives the zero of the sign that the
    NumPy at hand chooses (+0.0 with a vectorised reduction). *)
Lemma np_max_signed_zeros (np : NumPy) :
  let row := [f64 (-1) 0; S754_zero true; S754_zero false] in
  np_argmax row = Ok 1 /\
  np_max np row = Ok (S754_zero (max_zero_sign np row)).
Proof. split; reflexivity. Qed.

(** ** The prediction helpers *)

Lemma predict_unfold rt k input_data log :
  predict rt k input_data log =
    (Ok (reply rt k (model_output rt k input_data)), log ++ [call_of k input_data]).
Proof.
  destruct k; unfold predict, predict_crop, predict_soil, reply, assemble,
    model_output, model_of, scaler_of, bind, try_except, record, lift, ret; simpl.
  - destruct (attr (crop_model rt) _) as [model|]; [|reflexivity].
    destruct (get_details model); [|reflexivity].
    destruct (np_array (numpy rt) input_data); [|reflexivity].
    destruct (attr (crop_scaler rt) _) as [scaler|]; [|reflexivity].
    destruct (transform scaler _); [|reflexivity].
    destruct (run_model _ _) as [output|]; [|reflexivity].
    destruct (np_argmax output); [|reflexivity].
    destruct (np_max (numpy rt) output); [|reflexivity].
    destruct (py_index _ _); reflexivity.
  - destruct (attr (soil_model rt) _) as [model|]; [|reflexivity].
    destruct (get_details model); [|reflexivity].
    destruct (np_array (numpy rt) input_data); [|reflexivity].
    destruct (attr (soil_scaler rt) _) as [scaler|]; [|reflexivity].
    destruct (transform scaler _); [|reflexivity].
    destruct (run_model _ _) as [output|]; [|reflexivity].
    destruct (np_argmax output); [|reflexivity].
    destruct (np_max (numpy rt) output); [|reflexivity].
    destruct (py_index _ _); reflexivity.
Qed.

Lemma predict_crop_unfold rt input_data log :
  predict_crop rt input_data log =
    (Ok (reply rt CropModel (model_output rt CropModel input_data)),
     log ++ [PredictCrop input_data]).
Proof. exact (predict_unfold rt CropModel input_data log). Qed.

Lemma predict_soil_unfold rt input_data log :
  predict_soil rt input_data log =
    (Ok (reply rt SoilModel (model_output rt SoilModel input_data)),
     log ++ [PredictSoil input_data]).
Proof. exact (predict_unfold rt SoilModel input_data log). Qed.

Lemma field_error_object msg key :
  field (error_object msg) key = if decide (key = "error") then Some (JStr msg) else None.
Proof.
  unfold field, error_object. destruct (decide (key = "error")) as [->|Hne].
  - apply lookup_singleton_eq.
  - now apply lookup_singleton_ne.
Qed.

Lemma field_prediction_object k label c i :
  field (prediction_object k label c i) "error" = None /\
  field (prediction_object k label c i) (label_key k) = Some (JStr label) /\
  field (prediction_object k label c i) "confidence" = Some (JFloat c) /\
  field (prediction_object k label c i) "class_index" = Some (JInt i).
Proof. destruct k; repeat split; reflexivity. Qed.

(** The two shapes of a helper's reply. *)
Lemma reply_cases rt k output :
  (exists row label c i,
      output = Ok row /\ assemble rt k row = Ok (prediction_object k label c i) /\
      reply rt k output = prediction_object k label c i) \/
  (exists msg, reply rt k output = error_object msg).
Proof.
  unfold reply. destruct output as [row|e]; [|right; eauto].
  destruct (assemble rt k row) as [obj|e] eqn:Hasm; [|right; eauto].
  left. pose proof Hasm as Hshape. unfold assemble in Hshape.
  destruct (np_argmax row) as [i|]; [|discriminate].
  destruct (np_max (numpy rt) row) as [c|]; [|discriminate].
  destruct (py_index (labels_of k) i) as [label|]; [|discriminate].
  injection Hshape as <-. exists row, label, c, i. auto.
Qed.

Lemma assemble_inv rt k row label c i :
  assemble rt k row = Ok (prediction_object k label c i) ->
  np_argmax row = Ok i /\ np_max (numpy rt) row = Ok c /\ labels_of k !! Z.to_nat i = Some label.
Proof.
  unfold assemble.
  destruct (np_argmax row) as [i'|]; [|discriminate].
  destruct (np_max (numpy rt) row) as [c'|]; [|discriminate].
  unfold py_index. destruct (labels_of k !! Z.to_nat i') as [label'|] eqn:Hl;
    [|discriminate].
  intros Heq.
  assert (Hobj : prediction_object k label' c' i' = prediction_object k label c i)
    by congruence.
  pose proof (field_prediction_object k label c i) as (_ & Hl1 & Hc1 & Hi1).
  pose proof (field_prediction_object k label' c' i') as (_ & Hl2 & Hc2 & Hi2).
  rewrite Hobj in Hl2, Hc2, Hi2.
  assert (i' = i) by congruence. assert (c' = c) by congruence.
  assert (label' = label) by congruence. subst. auto.
Qed.

Lemma assemble_shape rt k row obj :
  assemble rt k row = Ok obj -> exists label c i, obj = prediction_object k label c i.
Proof.
  unfold assemble.
  destruct (np_argmax row) as [i|]; [|discriminate].
  destruct (np_max (numpy rt) row) as [c|]; [|discriminate].
  destruct (py_index (labels_of k) i) as [label|]; [|discriminate].
  intros [= <-]. eauto.
Qed.

Lemma prediction_not_error k label c i msg :
  prediction_object k label c i <> error_object msg.
Proof.
  intros Heq. pose proof (field_prediction_object k label c i) as (Herr & _).
  rewrite Heq, field_error_object in Herr. discriminate.
Qed.

Lemma error_object_inj msg msg' : error_object msg = error_object msg' -> msg = msg'.
Proof.
  intros Heq. pose proof (field_error_object msg "error") as Hm.
  rewrite Heq, field_error_object in Hm. simpl in Hm. congruence.
Qed.

Lemma reply_error_cases rt k output msg :
  reply rt k output = error_object msg ->
  exists e, msg = str_exn e /\
    (output = Raise e \/ exists row, output = Ok row /\ assemble rt k row = Raise e).
Proof.
  unfold reply. destruct output as [row|e].
  - destruct (assemble rt k row) as [obj|e] eqn:Hasm.
    + destruct (assemble_shape _ _ _ _ Hasm) as (label & c & i & ->).
      intros Heq. now apply prediction_not_error in Heq.
    + intros <-%error_object_inj. exists e. split; [reflexivity|right; eauto].
  - intros <-%error_object_inj. exists e. split; [reflexivity|now left].
Qed.

(** ** The request handlers *)

Lemma py_all_in_obj fields (m : gmap string json) :
  py_all_in fields (JObj m) =
    Ok (forallb (fun f => bool_decide (is_Some (m !! f))) fields).
Proof.
  induction fields as [|f rest IH]; simpl; [reflexivity|].
  destruct (bool_decide (is_Some (m !! f))); simpl; auto.
Qed.

Lemma py_in_reply rt k output :
  py_in "error" (reply rt k output) =
    Ok (bool_decide (is_Some (field (reply rt k output) "error"))).
Proof.
  destruct (reply_cases rt k output) as [(row & label & c & i & _ & _ & ->)|[msg ->]];
    reflexivity.
Qed.

Lemma py_getitems_all_in keys (m : gmap string json) vs :
  py_getitems (JObj m) keys = Ok vs -> py_all_in keys (JObj m) = Ok true.
Proof.
  rewrite py_all_in_obj. revert vs.
  induction keys as [|k rest IH]; intros vs; simpl; [reflexivity|].
  destruct (m !! k); [|discriminate]. simpl.
  destruct (py_getitems (JObj m) rest); [|discriminate]. intros _. eapply IH; eauto.
Qed.

Lemma py_getitems_lookup keys (m : gmap string json) vs k :
  py_getitems (JObj m) keys = Ok vs -> k ∈ keys -> is_Some (m !! k).
Proof.
  revert vs. induction keys as [|k' rest IH]; intros vs Hget Hin.
  - now apply elem_of_nil in Hin.
  - simpl in Hget. destruct (m !! k') as [v|] eqn:Hk; [|discriminate].
    destruct (py_getitems (JObj m) rest) as [vs'|]; [|discriminate].
    apply elem_of_cons in Hin as [->|Hin]; [rewrite Hk; eauto|].
    eapply IH; eauto.
Qed.

Lemma sensor_run rt (m : gmap string json) ph log :
  sensor_ph (JObj m) = Ok ph ->
  process_sensor_data rt (Ok (JObj m)) log =
    (let n := default (JInt 0) (m !! "nitrogen") in
     let p := default (JInt 0) (m !! "phosphorus") in
     let k := default (JInt 0) (m !! "potassium") in
     let t := default (JFloat float_25) (m !! "temperature") in
     let h := default (JFloat float_60) (m !! "humidity") in
     let r := default (JFloat float_100) (m !! "rainfall") in
     let crop_features := [n; p; k; t; h; ph; r] in
     let soil_features := [n; p; k; ph] in
     (Ok (jsonify
            (JObj {[ "success" := JBool true;
                     "sensor_data" := JObj m;
                     "recommendations" :=
                       JObj {[ "crop" :=
                                 reply rt CropModel (model_output rt CropModel crop_features);
                               "soil_fertility" :=
                                 reply rt SoilModel (model_output rt SoilModel soil_features) ]};
                     "processed_values" :=
                       JObj {[ "N" := n; "P" := p; "K" := k;
                               "pH" := ph; "ph" := ph;
                               "temperature" := t; "humidity" := h;
                               "rainfall" := r ]} ]}) 200),
      log ++ [PredictCrop crop_features; PredictSoil soil_features])).
Proof.
  intros Hph. unfold process_sensor_data, try_except, bind, lift, ret.
  rewrite Hph. cbn [py_get].
  set (n := match m !! "nitrogen" with Some v => v | None => JInt 0 end).
  set (p := match m !! "phosphorus" with Some v => v | None => JInt 0 end).
  set (k := match m !! "potassium" with Some v => v | None => JInt 0 end).
  set (t := match m !! "temperature" with Some v => v | None => JFloat float_25 end).
  set (h := match m !! "humidity" with Some v => v | None => JFloat float_60 end).
  set (r := match m !! "rainfall" with Some v => v | None => JFloat float_100 end).
  assert (Hc : py_getitems (JObj {[ "N" := n; "P" := p; "K" := k;
               "pH" := ph; "ph" := ph;
               "temperature" := t; "humidity" := h;
               "rainfall" := r ]}) ["N"; "P"; "K"; "temperature"; "humidity"; "ph"; "rainfall"] = Ok [n; p; k; t; h; ph; r]) by reflexivity.
  assert (Hs : py_getitems (JObj {[ "N" := n; "P" := p; "K" := k;
               "pH" := ph; "ph" := ph;
               "temperature" := t; "humidity" := h;
               "rainfall" := r ]}) ["N"; "P"; "K"; "pH"] = Ok [n; p; k; ph]) by reflexivity.
  rewrite Hc. rewrite predict_crop_unfold. rewrite Hs. rewrite predict_soil_unfold.
  rewrite <- app_assoc. reflexivity.
Qed.


Lemma reconcile_ph_both (m : gmap string json) :
  is_Some (m !! "ph") -> is_Some (m !! "pH") -> reconcile_ph (JObj m) = Ok (JObj m).
Proof.
  intros [a Ha] [b Hb]. unfold reconcile_ph, py_and, py_not, py_in.
  rewrite Ha, Hb. reflexivity.
Qed.

Lemma combined_run rt (m m' : gmap string json) cf sf log :
  reconcile_ph (JObj m) = Ok (JObj m') ->
  py_getitems (JObj m') crop_fields = Ok cf ->
  py_getitems (JObj m') soil_fields = Ok sf ->
  predict_combined_endpoint rt (Ok (JObj m)) log =
    (Ok (jsonify
           (JObj {[ "success" := JBool true;
                    "crop_prediction" := reply rt CropModel (model_output rt CropModel cf);
                    "soil_prediction" := reply rt SoilModel (model_output rt SoilModel sf);
                    "input_data" := JObj m' ]}) 200),
     log ++ [PredictCrop cf; PredictSoil sf]).
Proof.
  intros Hrec Hcf Hsf.
  unfold predict_combined_endpoint, try_except, bind, lift, ret.
  rewrite Hrec.
  fold crop_fields. fold soil_fields.
  rewrite (py_getitems_all_in _ _ _ Hcf), (py_getitems_all_in _ _ _ Hsf).
  cbn [negb]. rewrite Hcf, predict_crop_unfold, Hsf, predict_soil_unfold.
  rewrite <- app_assoc. reflexivity.
Qed.

Lemma model_output_unloaded rt input_data :
  crop_model rt = None ->
  model_output rt CropModel input_data =
    Raise (AttributeError "'NoneType' object has no attribute 'get_input_details'").
Proof. unfold model_output, model_of. intros ->. reflexivity. Qed.

(** ** The claims of the specification *)

(** C1: what [process_sensor_data] does with a [soilPH] of 65 and of 6.5.
    The value 65 is not greater than 100, so both helpers are handed 65
    itself; 6.5 is what [65 / 10.0] would have given. A [soilPH] of 6.5
    is handed on unchanged. *)
Theorem sensor_ph_65_kept rt log :
  snd (process_sensor_data rt (Ok (JObj {[ "soilPH" := JInt 65 ]})) log) =
    log ++ [PredictCrop [JInt 0; JInt 0; JInt 0; JFloat float_25; JFloat float_60;
                         JInt 65; JFloat float_100];
            PredictSoil [JInt 0; JInt 0; JInt 0; JInt 65]] /\
  snd (process_sensor_data rt (Ok (JObj {[ "soilPH" := JFloat float_6_5 ]})) log) =
    log ++ [PredictCrop [JInt 0; JInt 0; JInt 0; JFloat float_25; JFloat float_60;
                         JFloat float_6_5; JFloat float_100];
            PredictSoil [JInt 0; JInt 0; JInt 0; JFloat float_6_5]] /\
  py_div_10 (JInt 65) = Ok (JFloat float_6_5) /\
  JInt 65 <> JFloat float_6_5.
Proof.
  split; [|split; [|split]].
  - rewrite (sensor_run rt {[ "soilPH" := JInt 65 ]} (JInt 65) log); reflexivity.
  - rewrite (sensor_run rt {[ "soilPH" := JFloat float_6_5 ]} (JFloat float_6_5) log);
      reflexivity.
  - reflexivity.
  - discriminate.
Qed.

(** C2 as stated fails: for a crop request that lacks only [N], the error
    string of the 400 answer also names [P], which the request has. *)
Lemma crop_error_names_present_field :
  exists msg,
    predict_crop_endpoint stub (Ok (JObj (delete "N" crop_payload))) [] =
      (Ok (jsonify (error_object msg) 400), []) /\
    ~ names_exactly_the_absent msg (delete "N" crop_payload) crop_fields.
Proof.
  exists "Missing required fields: ['N', 'P', 'K', 'temperature', 'humidity', 'ph', 'rainfall']".
  split; [reflexivity|].
  intros Hexact. assert (HP : "P" ∈ crop_fields) by apply list_elem_of_further, list_elem_of_here.
  destruct (Hexact "P" HP) as [Hnamed _].
  specialize (Hnamed eq_refl). discriminate Hnamed.
Qed.

(** C2, as the code has it: when the body of a crop request is an object
    that lacks at least one of the seven required fields, the answer is
    HTTP 400 with one fixed error string, and neither helper is called.
    The string lists all seven required field names, so each absent
    field is named in it, and so is each field that is present. *)
Theorem crop_missing_field_400 rt (m : gmap string json) log :
  (exists f, f ∈ crop_fields /\ m !! f = None) ->
  let msg := "Missing required fields: ['N', 'P', 'K', 'temperature', 'humidity', 'ph', 'rainfall']" in
  predict_crop_endpoint rt (Ok (JObj m)) log =
    (Ok (jsonify (error_object msg) 400), log) /\
  Forall (fun f => error_names msg f = true) crop_fields.
Proof.
  intros (f & Hf & Hnone) msg. split.
  - unfold predict_crop_endpoint, try_except, bind, lift, ret.
    rewrite py_all_in_obj.
    assert (Hall : forallb (fun f => bool_decide (is_Some (m !! f)))
              ["N"; "P"; "K"; "temperature"; "humidity"; "ph"; "rainfall"] = false).
    { apply not_true_is_false. intros Hall. rewrite forallb_forall in Hall.
      apply list_elem_of_In in Hf. specialize (Hall f Hf).
      rewrite Hnone in Hall. discriminate. }
    rewrite Hall. reflexivity.
  - repeat constructor.
Qed.

Lemma crop_missing_field_400_witness :
  let msg := "Missing required fields: ['N', 'P', 'K', 'temperature', 'humidity', 'ph', 'rainfall']" in
  predict_crop_endpoint stub (Ok (JObj (delete "N" crop_payload))) [] =
    (Ok (jsonify (error_object msg) 400), []) /\
  Forall (fun f => error_names msg f = true) crop_fields.
Proof.
  apply (crop_missing_field_400 stub (delete "N" crop_payload) []).
  exists "N". split; [|reflexivity]. unfold crop_fields. apply list_elem_of_here.
Defined.

(** C3: the answers when the crop model is not loaded, so that the
    inference step of [predict_crop] fails. [predict_crop_endpoint]
    answers 500 with the failure message. [predict_combined_endpoint] and
    [process_sensor_data] answer 200 with ['success': True] and carry
    the failure message inside the crop entry of the body. *)
Theorem inference_failure_status rt (m s : gmap string json) cf sf ph log :
  crop_model rt = None ->
  py_getitems (JObj m) crop_fields = Ok cf ->
  py_getitems (JObj m) soil_fields = Ok sf ->
  sensor_ph (JObj s) = Ok ph ->
  let msg := "'NoneType' object has no attribute 'get_input_details'" in
  fst (predict_crop_endpoint rt (Ok (JObj m)) log) =
    Ok (jsonify (error_object msg) 500) /\
  (exists r,
      fst (predict_combined_endpoint rt (Ok (JObj m)) log) = Ok r /\
      status r = 200 /\
      field (body r) "success" = Some (JBool true) /\
      field (body r) "crop_prediction" = Some (error_object msg)) /\
  (exists r recommendations,
      fst (process_sensor_data rt (Ok (JObj s)) log) = Ok r /\
      status r = 200 /\
      field (body r) "success" = Some (JBool true) /\
      field (body r) "recommendations" = Some recommendations /\
      field recommendations "crop" = Some (error_object msg)).
Proof.
  intros Hnone Hcf Hsf Hph msg. split; [|split].
  - unfold predict_crop_endpoint, try_except, bind, lift, ret.
    fold crop_fields. rewrite (py_getitems_all_in _ _ _ Hcf). cbn [negb].
    rewrite Hcf, predict_crop_unfold, py_in_reply.
    rewrite model_output_unloaded by assumption. reflexivity.
  - rewrite (combined_run rt m m cf sf log); auto.
    + rewrite model_output_unloaded by assumption.
      eexists. split; [reflexivity|]. repeat split.
    + apply reconcile_ph_both.
      * apply (py_getitems_lookup _ _ _ _ Hcf). unfold crop_fields.
        do 5 apply list_elem_of_further. apply list_elem_of_here.
      * apply (py_getitems_lookup _ _ _ _ Hsf). unfold soil_fields.
        do 3 apply list_elem_of_further. apply list_elem_of_here.
  - rewrite (sensor_run rt s ph log Hph). cbv zeta.
    rewrite model_output_unloaded by assumption.
    eexists _, _. split; [reflexivity|]. repeat split.
Qed.

Lemma inference_failure_status_witness :
  let msg := "'NoneType' object has no attribute 'get_input_details'" in
  let m := <["pH" := JFloat float_6_5]> crop_payload in
  let s : gmap string json := {[ "soilPH" := JFloat float_6_5 ]} in
  fst (predict_crop_endpoint unloaded (Ok (JObj m)) []) =
    Ok (jsonify (error_object msg) 500) /\
  (exists r,
      fst (predict_combined_endpoint unloaded (Ok (JObj m)) []) = Ok r /\
      status r = 200 /\
      field (body r) "success" = Some (JBool true) /\
      field (body r) "crop_prediction" = Some (error_object msg)) /\
  (exists r recommendations,
      fst (process_sensor_data unloaded (Ok (JObj s)) []) = Ok r /\
      status r = 200 /\
      field (body r) "success" = Some (JBool true) /\
      field (body r) "recommendations" = Some recommendations /\
      field recommendations "crop" = Some (error_object msg)).
Proof.
  intros msg m s.
  eapply (inference_failure_status unloaded m s _ _ _ []); reflexivity.
Defined.

(** C4: for a crop request that has all seven required fields,
    [predict_crop] is called once, with the seven supplied values in the
    order N, P, K, temperature, humidity, ph, rainfall. *)
Theorem crop_feature_vector_order rt (m : gmap string json)
    vN vP vK vT vH vph vR log :
  m !! "N" = Some vN -> m !! "P" = Some vP -> m !! "K" = Some vK ->
  m !! "temperature" = Some vT -> m !! "humidity" = Some vH ->
  m !! "ph" = Some vph -> m !! "rainfall" = Some vR ->
  snd (predict_crop_endpoint rt (Ok (JObj m)) log) =
    log ++ [PredictCrop [vN; vP; vK; vT; vH; vph; vR]].
Proof.
  intros HN HP HK HT HH Hph HR.
  unfold predict_crop_endpoint, try_except, bind, lift, ret.
  rewrite py_all_in_obj. simpl. rewrite HN, HP, HK, HT, HH, Hph, HR. simpl.
  rewrite predict_crop_unfold. rewrite py_in_reply.
  destruct (bool_decide _); reflexivity.
Qed.

Lemma crop_feature_vector_order_witness :
  snd (predict_crop_endpoint stub (Ok (JObj crop_payload)) []) =
    [] ++ [PredictCrop [JInt 90; JInt 42; JInt 43;
                  JFloat (f64 5882827013252710 (-48)); JFloat (f64 82 0);
                  JFloat float_6_5; JFloat (f64 7138909096824013 (-45))]].
Proof.
  apply (crop_feature_vector_order stub crop_payload); reflexivity.
Defined.








(** C8: whenever a helper returns a prediction, the class index it
    reports is the index of the maximum of the model's output row (the
    first one, as [np.argmax] has it), and the confidence it reports is
    the maximum itself: an entry of the row, the same number as the entry
    at the reported index (identical to it, but for the sign of a zero
    maximum in a row that has both zeros), which no entry exceeds. *)
Theorem prediction_reports_first_maximum rt k input_data log obj log' :
  predict rt k input_data log = (Ok obj, log') ->
  field obj "error" = None ->
  exists output i c,
    model_output rt k input_data = Ok output /\
    field obj "class_index" = Some (JInt (Z.of_nat i)) /\
    field obj "confidence" = Some (JFloat c) /\
    first_maximum output i c.
Proof.
  rewrite predict_unfold. intros [= <- _] Hok.
  destruct (reply_cases rt k (model_output rt k input_data))
    as [(row & label & c & i & Hout & Hasm & Hr)|[msg Hr]]; rewrite Hr in *.
  - apply assemble_inv in Hasm as (Harg & Hmax & _).
    assert (Hne : row <> []) by (intros ->; discriminate).
    destruct (np_reductions (numpy rt) row Hne) as (i' & c' & Harg' & Hmax' & _ & Hfirst).
    assert (i = Z.of_nat i') as -> by congruence.
    assert (c = c') as -> by congruence.
    pose proof (field_prediction_object k label c' (Z.of_nat i')) as (_ & _ & Hc & Hi).
    exists row, i', c'. auto.
  - rewrite field_error_object in Hok. discriminate.
Qed.

Lemma prediction_reports_first_maximum_witness :
  exists output i c,
    model_output stub SoilModel [] = Ok output /\
    field (prediction_object SoilModel "High" (f64 5 (-3)) 2) "class_index"
      = Some (JInt (Z.of_nat i)) /\
    field (prediction_object SoilModel "High" (f64 5 (-3)) 2) "confidence"
      = Some (JFloat c) /\
    first_maximum output i c.
Proof.
  apply (prediction_reports_first_maximum stub SoilModel [] []
           (prediction_object SoilModel "High" (f64 5 (-3)) 2) [PredictSoil []]).
  - vm_compute. reflexivity.
  - vm_compute. reflexivity.
Defined.

(** C9: when the output row of a model has as many entries as the
    model has labels (22 for crop, 3 for soil), its helper returns a
    prediction, not an error: the class index lies in [0, N) and the
    lookup in the label table finds the reported label. *)
Theorem class_index_in_bounds rt k input_data log output :
  model_output rt k input_data = Ok output ->
  length output = num_classes k ->
  exists class_index c label,
    predict rt k input_data log =
      (Ok (prediction_object k label c class_index),
       log ++ [call_of k input_data]) /\
    0 <= class_index < Z.of_nat (num_classes k) /\
    length (labels_of k) = num_classes k /\
    labels_of k !! Z.to_nat class_index = Some label.
Proof.
  intros Hout Hlen. rewrite predict_unfold, Hout.
  assert (Hne : output <> []) by (intros ->; destruct k; discriminate).
  destruct (np_reductions (numpy rt) output Hne) as (i & c & Harg & Hmax & Hlt & _).
  assert (Hlabels : length (labels_of k) = num_classes k) by (destruct k; reflexivity).
  destruct (lookup_lt_is_Some_2 (labels_of k) i) as [label Hlabel]; [lia|].
  exists (Z.of_nat i), c, label. unfold reply, assemble, py_index.
  rewrite Harg, Hmax, Nat2Z.id, Hlabel. repeat split; auto; lia.
Qed.

Lemma class_index_in_bounds_witness :
  exists class_index c label,
    predict stub CropModel [JInt 90] [] =
      (Ok (prediction_object CropModel label c class_index),
       [] ++ [call_of CropModel [JInt 90]]) /\
    0 <= class_index < Z.of_nat (num_classes CropModel) /\
    length (labels_of CropModel) = num_classes CropModel /\
    labels_of CropModel !! Z.to_nat class_index = Some label.
Proof.
  apply (class_index_in_bounds stub CropModel [JInt 90] [] crop_scores).
  - vm_compute. reflexivity.
  - vm_compute. reflexivity.
Defined.

(** C10: [predict_crop] and [predict_soil] never raise. On every input
    each of them returns either a prediction object (its label, its
    confidence and its class index, and nothing else) or the object whose
    only key is 'error', holding [str(e)] for the exception [e] that ended
    the [try] block. *)
Theorem predict_helpers_total rt input_data log :
  (exists obj,
      predict_crop rt input_data log = (Ok obj, log ++ [PredictCrop input_data]) /\
      ((exists label c i, obj = prediction_object CropModel label c i) \/
       (exists e, obj = error_object (str_exn e) /\
          (model_output rt CropModel input_data = Raise e \/
           exists row, model_output rt CropModel input_data = Ok row /\
                       assemble rt CropModel row = Raise e)))) /\
  (exists obj,
      predict_soil rt input_data log = (Ok obj, log ++ [PredictSoil input_data]) /\
      ((exists label c i, obj = prediction_object SoilModel label c i) \/
       (exists e, obj = error_object (str_exn e) /\
          (model_output rt SoilModel input_data = Raise e \/
           exists row, model_output rt SoilModel input_data = Ok row /\
                       assemble rt SoilModel row = Raise e)))).
Proof.
  split.
  - rewrite predict_crop_unfold. eexists; split; [reflexivity|].
    destruct (reply_cases rt CropModel (model_output rt CropModel input_data))
      as [(row & label & c & i & _ & _ & Hr)|[msg Hr]]; [left; eauto|right].
    destruct (reply_error_cases _ _ _ _ Hr) as (e & -> & He). eauto.
  - rewrite predict_soil_unfold. eexists; split; [reflexivity|].
    destruct (reply_cases rt SoilModel (model_output rt SoilModel input_data))
      as [(row & label & c & i & _ & _ & Hr)|[msg Hr]]; [left; eauto|right].
    destruct (reply_error_cases _ _ _ _ Hr) as (e & -> & He). eauto.
Qed.

(** * Further properties *)

(** ** The single-model endpoints *)

Lemma py_all_in_getitems fields (m : gmap string json) :
  py_all_in fields (JObj m) = Ok true ->
  exists vs, py_getitems (JObj m) fields = Ok vs.
Proof.
  rewrite py_all_in_obj. induction fields as [|f rest IH]; simpl; [eauto|].
  destruct (m !! f) as [v|]; simpl; [|discriminate].
  intros Hrest. destruct (IH Hrest) as [vs ->]. eauto.
Qed.

Lemma py_all_in_false fields (m : gmap string json) :
  (exists f, f ∈ fields /\ m !! f = None) ->
  py_all_in fields (JObj m) = Ok false.
Proof.
  intros (f & Hf & Hnone). rewrite py_all_in_obj. f_equal.
  apply not_true_is_false. intros Hall. rewrite forallb_forall in Hall.
  apply list_elem_of_In in Hf. specialize (Hall f Hf).
  rewrite Hnone in Hall. discriminate.
Qed.

Lemma py_all_in_false_inv fields (m : gmap string json) :
  py_all_in fields (JObj m) = Ok false ->
  exists f, f ∈ fields /\ m !! f = None.
Proof.
  rewrite py_all_in_obj. induction fields as [|f rest IH]; simpl; [discriminate|].
  destruct (m !! f) as [v|] eqn:Hf; simpl.
  - intros Hrest. destruct (IH Hrest) as (g & Hg & Hnone).
    exists g. split; [now apply list_elem_of_further|assumption].
  - intros _. exists f. split; [apply list_elem_of_here|assumption].
Qed.

Lemma endpoint_complete rt k (m : gmap string json) features log :
  py_getitems (JObj m) (fields_of k) = Ok features ->
  endpoint rt k (Ok (JObj m)) log =
    (Ok (if bool_decide (is_Some (field (reply rt k (model_output rt k features)) "error"))
         then jsonify (reply rt k (model_output rt k features)) 500
         else jsonify (JObj {[ "success" := JBool true;
                               "prediction" := reply rt k (model_output rt k features);
                               "input_data" := JObj m ]}) 200),
     log ++ [call_of k features]).
Proof.
  intros Hget. pose proof (py_getitems_all_in _ _ _ Hget) as Hall.
  destruct k; unfold endpoint, predict_crop_endpoint, predict_soil_endpoint,
    try_except, bind, lift, ret, fields_of in *.
  - fold crop_fields. rewrite Hall. cbn [negb].
    rewrite Hget, predict_crop_unfold, py_in_reply.
    destruct (bool_decide _); reflexivity.
  - fold soil_fields. rewrite Hall. cbn [negb].
    rewrite Hget, predict_soil_unfold, py_in_reply.
    destruct (bool_decide _); reflexivity.
Qed.

Lemma endpoint_incomplete rt k data log :
  py_all_in (fields_of k) data = Ok false ->
  endpoint rt k (Ok data) log =
    (Ok (jsonify (error_object ("Missing required fields: "
                                +:+ py_repr_list (fields_of k))) 400), log).
Proof.
  intros Hall.
  destruct k; unfold endpoint, predict_crop_endpoint, predict_soil_endpoint,
    try_except, bind, lift, ret, fields_of in *.
  - fold crop_fields. rewrite Hall. reflexivity.
  - fold soil_fields. rewrite Hall. reflexivity.
Qed.

(** X1: for a soil request that has the four required fields,
    [predict_soil] is called once, with the supplied values in the order
    N, P, K, pH, and [predict_crop] is not called. *)
Theorem soil_feature_vector_order rt (m : gmap string json) vN vP vK vpH log :
  m !! "N" = Some vN -> m !! "P" = Some vP -> m !! "K" = Some vK ->
  m !! "pH" = Some vpH ->
  snd (predict_soil_endpoint rt (Ok (JObj m)) log) =
    log ++ [PredictSoil [vN; vP; vK; vpH]].
Proof.
  intros HN HP HK HpH.
  change (predict_soil_endpoint rt) with (endpoint rt SoilModel).
  rewrite (endpoint_complete rt SoilModel m [vN; vP; vK; vpH] log); [reflexivity|].
  unfold fields_of, soil_fields, py_getitems, py_getitem.
  now rewrite HN, HP, HK, HpH.
Qed.

Lemma soil_feature_vector_order_witness :
  snd (predict_soil_endpoint stub
         (Ok (JObj {[ "N" := JInt 90; "P" := JInt 42; "K" := JInt 43;
                      "pH" := JFloat float_6_5 ]})) []) =
    [] ++ [PredictSoil [JInt 90; JInt 42; JInt 43; JFloat float_6_5]].
Proof.
  apply (soil_feature_vector_order stub
           {[ "N" := JInt 90; "P" := JInt 42; "K" := JInt 43;
              "pH" := JFloat float_6_5 ]}); reflexivity.
Defined.

(** X2: a soil request whose body is an object lacking one of N, P, K,
    pH is answered 400 with the fixed message that lists the four
    field names, and no helper is called. *)
Theorem soil_missing_field_400 rt (m : gmap string json) log :
  (exists f, f ∈ soil_fields /\ m !! f = None) ->
  predict_soil_endpoint rt (Ok (JObj m)) log =
    (Ok (jsonify (error_object
                    "Missing required fields: ['N', 'P', 'K', 'pH']") 400),
     log).
Proof.
  intros Hmissing.
  exact (endpoint_incomplete rt SoilModel (JObj m) log
           (py_all_in_false soil_fields m Hmissing)).
Qed.

Lemma soil_missing_field_400_witness :
  predict_soil_endpoint stub (Ok (JObj crop_payload)) [] =
    (Ok (jsonify (error_object
                    "Missing required fields: ['N', 'P', 'K', 'pH']") 400),
     []).
Proof.
  apply (soil_missing_field_400 stub crop_payload []).
  exists "pH". split; [|reflexivity].
  do 3 apply list_elem_of_further. apply list_elem_of_here.
Defined.

(** X3: on a complete body, whatever makes the helper of a
    single-model endpoint fail (a global not loaded, the conversion, the
    scaler or the interpreter raising, an empty row, an index outside
    the label table), the endpoint answers 500 and its body is exactly
    [{'error': str(e)}] for that exception. *)
Theorem endpoint_inference_failure_500 rt k (m : gmap string json) features e log :
  py_getitems (JObj m) (fields_of k) = Ok features ->
  model_output rt k features = Raise e \/
  (exists row, model_output rt k features = Ok row /\ assemble rt k row = Raise e) ->
  endpoint rt k (Ok (JObj m)) log =
    (Ok (jsonify (error_object (str_exn e)) 500), log ++ [call_of k features]).
Proof.
  intros Hget Hfail. rewrite (endpoint_complete rt k m features log Hget).
  assert (Hreply : reply rt k (model_output rt k features) = error_object (str_exn e)).
  { unfold reply. destruct Hfail as [->|(row & -> & ->)]; reflexivity. }
  rewrite Hreply. reflexivity.
Qed.

Lemma endpoint_inference_failure_500_witness :
  endpoint unloaded SoilModel
    (Ok (JObj {[ "N" := JInt 90; "P" := JInt 42; "K" := JInt 43;
                 "pH" := JFloat float_6_5 ]})) [] =
    (Ok (jsonify (error_object
           (str_exn (AttributeError
              "'NoneType' object has no attribute 'get_input_details'"))) 500),
     [] ++ [call_of SoilModel [JInt 90; JInt 42; JInt 43; JFloat float_6_5]]).
Proof.
  apply (endpoint_inference_failure_500 unloaded SoilModel
           {[ "N" := JInt 90; "P" := JInt 42; "K" := JInt 43;
              "pH" := JFloat float_6_5 ]}).
  - reflexivity.
  - left. reflexivity.
Defined.



(** ** Every request, whatever its body *)

Lemma py_getitems_object data keys vs :
  py_getitems data keys = Ok vs -> keys <> [] -> exists m, data = JObj m.
Proof.
  destruct keys as [|k rest]; [congruence|]. intros Hget _.
  destruct data; try discriminate. eauto.
Qed.

Lemma endpoint_unfold rt k data log :
  endpoint rt k (Ok data) log =
    match py_all_in (fields_of k) data with
    | Raise e => (Ok (jsonify (error_object (str_exn e)) 500), log)
    | Ok false =>
        (Ok (jsonify (error_object ("Missing required fields: "
                                    +:+ py_repr_list (fields_of k))) 400), log)
    | Ok true =>
        match py_getitems data (fields_of k) with
        | Raise e => (Ok (jsonify (error_object (str_exn e)) 500), log)
        | Ok features =>
            (Ok (if bool_decide
                      (is_Some (field (reply rt k (model_output rt k features)) "error"))
                 then jsonify (reply rt k (model_output rt k features)) 500
                 else jsonify (JObj {[ "success" := JBool true;
                                       "prediction" :=
                                         reply rt k (model_output rt k features);
                                       "input_data" := data ]}) 200),
             log ++ [call_of k features])
        end
    end.
Proof.
  destruct k; unfold endpoint, predict_crop_endpoint, predict_soil_endpoint,
    try_except, bind, lift, ret, fields_of.
  - fold crop_fields. destruct (py_all_in crop_fields data) as [[]|]; try reflexivity.
    cbn [negb]. destruct (py_getitems data crop_fields); [|reflexivity].
    rewrite predict_crop_unfold, py_in_reply. destruct (bool_decide _); reflexivity.
  - fold soil_fields. destruct (py_all_in soil_fields data) as [[]|]; try reflexivity.
    cbn [negb]. destruct (py_getitems data soil_fields); [|reflexivity].
    rewrite predict_soil_unfold, py_in_reply. destruct (bool_decide _); reflexivity.
Qed.

Lemma combined_unfold rt data log :
  predict_combined_endpoint rt (Ok data) log =
    match reconcile_ph data with
    | Raise e => (Ok (jsonify (error_object (str_exn e)) 500), log)
    | Ok data =>
        match py_all_in crop_fields data with
        | Raise e => (Ok (jsonify (error_object (str_exn e)) 500), log)
        | Ok false =>
            (Ok (jsonify (error_object ("Missing crop fields: "
                                        +:+ py_repr_list crop_fields)) 400), log)
        | Ok true =>
            match py_all_in soil_fields data with
            | Raise e => (Ok (jsonify (error_object (str_exn e)) 500), log)
            | Ok false =>
                (Ok (jsonify (error_object ("Missing soil fields: "
                                            +:+ py_repr_list soil_fields)) 400), log)
            | Ok true =>
                match py_getitems data crop_fields with
                | Raise e => (Ok (jsonify (error_object (str_exn e)) 500), log)
                | Ok cf =>
                    match py_getitems data soil_fields with
                    | Raise e =>
                        (Ok (jsonify (error_object (str_exn e)) 500),
                         log ++ [PredictCrop cf])
                    | Ok sf =>
                        (Ok (jsonify
                               (JObj {[ "success" := JBool true;
                                        "crop_prediction" :=
                                          reply rt CropModel (model_output rt CropModel cf);
                                        "soil_prediction" :=
                                          reply rt SoilModel (model_output rt SoilModel sf);
                                        "input_data" := data ]}) 200),
                         log ++ [PredictCrop cf; PredictSoil sf])
                    end
                end
            end
        end
    end.
Proof.
  unfold predict_combined_endpoint, try_except, bind, lift, ret.
  destruct (reconcile_ph data) as [data'|]; [|reflexivity].
  fold crop_fields. fold soil_fields.
  destruct (py_all_in crop_fields data') as [[]|]; try reflexivity. cbn [negb].
  destruct (py_all_in soil_fields data') as [[]|]; try reflexivity. cbn [negb].
  destruct (py_getitems data' crop_fields) as [cf|]; [|reflexivity].
  rewrite predict_crop_unfold.
  destruct (py_getitems data' soil_fields) as [sf|]; [|reflexivity].
  rewrite predict_soil_unfold, <- app_assoc. reflexivity.
Qed.

Lemma sensor_ph_object data ph :
  sensor_ph data = Ok ph -> exists m, data = JObj m.
Proof. destruct data; try discriminate. eauto. Qed.

Lemma sensor_failed rt data e log :
  sensor_ph data = Raise e ->
  process_sensor_data rt (Ok data) log =
    (Ok (jsonify (error_object (str_exn e)) 500), log).
Proof.
  intros Hph. unfold process_sensor_data, try_except, bind, lift, ret.
  now rewrite Hph.
Qed.

Lemma reconcile_ph_same_kind data data' :
  reconcile_ph data = Ok data' ->
  (exists m m', data = JObj m /\ data' = JObj m') \/
  (data' = data /\ forall m, data <> JObj m).
Proof.
  destruct data as [| | | |s|l|m]; try discriminate.
  - unfold reconcile_ph, py_and, py_not, py_getitem, py_setitem.
    destruct (py_in "pH" (JStr s)) as [[]|]; destruct (py_in "ph" (JStr s)) as [[]|];
      simpl; try discriminate; intros [= <-]; right; (split; [reflexivity|discriminate]).
  - unfold reconcile_ph, py_and, py_not, py_getitem, py_setitem.
    destruct (py_in "pH" (JArr l)) as [[]|]; destruct (py_in "ph" (JArr l)) as [[]|];
      simpl; try discriminate; intros [= <-]; right; (split; [reflexivity|discriminate]).
  - unfold reconcile_ph, py_and, py_not, py_in, py_getitem, py_setitem.
    intros H. left. exists m.
    destruct (m !! "pH"), (m !! "ph"); simpl in H; injection H as <-; eauto.
Qed.

Lemma py_all_in_true fields data f :
  py_all_in fields data = Ok true -> f ∈ fields -> py_in f data = Ok true.
Proof.
  induction fields as [|g rest IH]; intros Hall Hin.
  - now apply elem_of_nil in Hin.
  - cbn [py_all_in] in Hall. destruct (py_in g data) as [[]|] eqn:Hg; try discriminate.
    apply elem_of_cons in Hin as [->|Hin]; auto.
Qed.

Lemma reconcile_ph_gives_pH data data' :
  reconcile_ph data = Ok data' ->
  py_in "ph" data' = Ok true -> py_in "pH" data' = Ok true.
Proof.
  destruct data as [| | | |s|l|m]; try discriminate.
  - unfold reconcile_ph, py_and, py_not, py_getitem, py_setitem.
    destruct (py_in "pH" (JStr s)) as [[]|] eqn:HpH;
      destruct (py_in "ph" (JStr s)) as [[]|] eqn:Hph;
      simpl; try discriminate; intros [= <-]; congruence.
  - unfold reconcile_ph, py_and, py_not, py_getitem, py_setitem.
    destruct (py_in "pH" (JArr l)) as [[]|] eqn:HpH;
      destruct (py_in "ph" (JArr l)) as [[]|] eqn:Hph;
      simpl; try discriminate; intros [= <-]; congruence.
  - intros Hrec. unfold reconcile_ph, py_and, py_not, py_in, py_getitem, py_setitem in Hrec.
    destruct (m !! "pH") eqn:HpH, (m !! "ph") eqn:Hph; simpl in Hrec;
      injection Hrec as <-; cbn [py_in].
    + now rewrite HpH.
    + intros _. rewrite lookup_insert_ne by discriminate. now rewrite HpH.
    + intros _. now rewrite lookup_insert_eq.
    + now rewrite Hph.
Qed.

Lemma combined_soil_check_passes data data' :
  reconcile_ph data = Ok data' ->
  py_all_in crop_fields data' = Ok true ->
  py_all_in soil_fields data' = Ok true.
Proof.
  intros Hrec Hcrop.
  assert (HN : py_in "N" data' = Ok true).
  { apply (py_all_in_true crop_fields); auto. apply list_elem_of_here. }
  assert (HP : py_in "P" data' = Ok true).
  { apply (py_all_in_true crop_fields); auto.
    apply list_elem_of_further, list_elem_of_here. }
  assert (HK : py_in "K" data' = Ok true).
  { apply (py_all_in_true crop_fields); auto.
    do 2 apply list_elem_of_further. apply list_elem_of_here. }
  assert (Hph : py_in "ph" data' = Ok true).
  { apply (py_all_in_true crop_fields); auto.
    do 5 apply list_elem_of_further. apply list_elem_of_here. }
  pose proof (reconcile_ph_gives_pH _ _ Hrec Hph) as HpH.
  unfold soil_fields. cbn [py_all_in]. now rewrite HN, HP, HK, HpH.
Qed.

(** X5: whatever the request, a 400 of the combined endpoint is the
    'Missing crop fields' answer and comes before any helper call: once
    the crop fields are there, [pH] is there too (it was supplied or
    copied from [ph]), so the 'Missing soil fields' answer is never
    given. *)
Theorem combined_400_is_missing_crop_fields rt get_json log :
  (exists r, fst (predict_combined_endpoint rt get_json log) = Ok r /\ status r = 400) ->
  predict_combined_endpoint rt get_json log =
    (Ok (jsonify (error_object
           "Missing crop fields: ['N', 'P', 'K', 'temperature', 'humidity', 'ph', 'rainfall']")
           400),
     log).
Proof.
  intros (r & Hr & Hstatus). revert Hr. destruct get_json as [data|e].
  - rewrite combined_unfold.
    destruct (reconcile_ph data) as [data'|] eqn:Hrec;
      [|intros [= <-]; discriminate].
    destruct (py_all_in crop_fields data') as [[]|] eqn:Hcrop;
      [|reflexivity|intros [= <-]; discriminate].
    rewrite (combined_soil_check_passes _ _ Hrec Hcrop).
    destruct (py_getitems data' crop_fields) as [cf|];
      [|intros [= <-]; discriminate].
    destruct (py_getitems data' soil_fields) as [sf|];
      intros [= <-]; discriminate.
  - unfold predict_combined_endpoint, try_except, bind, lift, ret.
    intros [= <-]; discriminate.
Qed.

Lemma combined_400_is_missing_crop_fields_witness :
  predict_combined_endpoint stub (Ok (JObj (delete "N" crop_payload))) [] =
    (Ok (jsonify (error_object
           "Missing crop fields: ['N', 'P', 'K', 'temperature', 'humidity', 'ph', 'rainfall']")
           400),
     []).
Proof.
  apply (combined_400_is_missing_crop_fields stub
           (Ok (JObj (delete "N" crop_payload))) []).
  eexists. split; reflexivity.
Defined.

Ltac answer :=
  eexists _, _; split;
  [first [reflexivity | rewrite app_nil_r; reflexivity]|];
  simpl; repeat split; auto; try discriminate; eauto.

Lemma endpoint_never_raises rt k get_json log :
  exists r calls,
    endpoint rt k get_json log = (Ok r, log ++ calls) /\
    (status r = 200 \/ status r = 400 \/ status r = 500) /\
    (calls = [] \/ exists x, calls = [call_of k x]) /\
    (status r = 400 -> calls = []).
Proof.
  destruct get_json as [data|e].
  - rewrite endpoint_unfold.
    destruct (py_all_in (fields_of k) data) as [[]|]; [|answer|answer].
    destruct (py_getitems data (fields_of k)) as [features|]; [|answer].
    destruct (bool_decide _); answer.
  - destruct k; unfold endpoint, predict_crop_endpoint, predict_soil_endpoint,
      try_except, bind, lift, ret; answer.
Qed.

(** X6: no view function lets an exception escape. Every request is
    answered with status 200, 400 or 500; a request makes no helper call,
    or the calls its view is there for (one for a single-model endpoint,
    the crop call followed by the soil call for the two others); a 400
    answer is given before any helper call. *)
Theorem views_never_raise rt v get_json log :
  exists r calls,
    run_view rt v get_json log = (Ok r, log ++ calls) /\
    (status r = 200 \/ status r = 400 \/ status r = 500) /\
    calls_allowed v calls /\
    (status r = 400 -> calls = []).
Proof.
  destruct v; unfold run_view, calls_allowed.
  - unfold ret, home. answer.
  - exact (endpoint_never_raises rt CropModel get_json log).
  - exact (endpoint_never_raises rt SoilModel get_json log).
  - destruct get_json as [data|e].
    + rewrite combined_unfold.
      destruct (reconcile_ph data) as [data'|] eqn:Hrec; [|answer].
      destruct (py_all_in crop_fields data') as [[]|] eqn:Hcrop; [|answer|answer].
      rewrite (combined_soil_check_passes _ _ Hrec Hcrop).
      destruct (py_getitems data' crop_fields) as [cf|] eqn:Hcf; [|answer].
      destruct (py_getitems_object _ _ _ Hcf) as [m ->]; [discriminate|].
      destruct (py_all_in_getitems soil_fields m) as [sf ->];
        [exact (combined_soil_check_passes _ _ Hrec Hcrop)|].
      answer.
    + unfold predict_combined_endpoint, try_except, bind, lift, ret. answer.
  - destruct get_json as [data|e].
    + destruct (sensor_ph data) as [ph|e] eqn:Hph.
      * destruct (sensor_ph_object _ _ Hph) as [m ->].
        rewrite (sensor_run rt m ph log Hph). cbv zeta. answer.
      * rewrite (sensor_failed rt data e log Hph). answer.
    + unfold process_sensor_data, try_except, bind, lift, ret. answer.
Qed.

Lemma endpoint_rejects_non_object rt k get_json log :
  (forall m, get_json <> Ok (JObj m)) ->
  exists r,
    endpoint rt k get_json log = (Ok r, log) /\
    (status r = 400 \/ status r = 500) /\
    (forall e, get_json = Raise e -> r = jsonify (error_object (str_exn e)) 500).
Proof.
  intros Hnot. destruct get_json as [data|e].
  - rewrite endpoint_unfold.
    destruct (py_all_in (fields_of k) data) as [[]|];
      [|eexists; repeat split; auto; discriminate
       |eexists; repeat split; auto; discriminate].
    destruct (py_getitems data (fields_of k)) as [features|] eqn:Hget;
      [|eexists; repeat split; auto; discriminate].
    destruct (py_getitems_object _ _ _ Hget) as [m ->]; [destruct k; discriminate|].
    now destruct (Hnot m).
  - destruct k; unfold endpoint, predict_crop_endpoint, predict_soil_endpoint,
      try_except, bind, lift, ret; eexists; repeat split; auto;
      intros e' [= ->]; reflexivity.
Qed.

(** X7: a POST request whose body could not be parsed, or is not a
    JSON object (null, a boolean, a number, a string, a list), is
    answered 400 or 500 and never reaches a helper. An exception of
    [get_json] is answered 500 with [str(e)]; the sensor view answers
    500 for every such body. *)
Theorem only_objects_reach_the_models rt v get_json log :
  v <> Home ->
  (forall m, get_json <> Ok (JObj m)) ->
  exists r,
    run_view rt v get_json log = (Ok r, log) /\
    (status r = 400 \/ status r = 500) /\
    (v = SensorData -> status r = 500) /\
    (forall e, get_json = Raise e -> r = jsonify (error_object (str_exn e)) 500).
Proof.
  intros Hview Hnot. destruct v; [congruence| | | |]; unfold run_view.
  - destruct (endpoint_rejects_non_object rt CropModel get_json log Hnot)
      as (r & Hr & Hs & He).
    exists r. repeat split; auto. discriminate.
  - destruct (endpoint_rejects_non_object rt SoilModel get_json log Hnot)
      as (r & Hr & Hs & He).
    exists r. repeat split; auto. discriminate.
  - destruct get_json as [data|e].
    + rewrite combined_unfold.
      destruct (reconcile_ph data) as [data'|] eqn:Hrec;
        [|eexists; repeat split; auto; discriminate].
      destruct (reconcile_ph_same_kind _ _ Hrec) as [(m & _ & -> & _)|[-> Hdata]];
        [now destruct (Hnot m)|].
      destruct (py_all_in crop_fields data) as [[]|] eqn:Hcrop;
        [|eexists; repeat split; auto; discriminate
         |eexists; repeat split; auto; discriminate].
      rewrite (combined_soil_check_passes _ _ Hrec Hcrop).
      destruct (py_getitems data crop_fields) as [cf|] eqn:Hcf;
        [|eexists; repeat split; auto; discriminate].
      destruct (py_getitems_object _ _ _ Hcf) as [m ->]; [discriminate|].
      now destruct (Hdata m).
    + unfold predict_combined_endpoint, try_except, bind, lift, ret.
      eexists; repeat split; auto; try discriminate. intros e' [= ->]. reflexivity.
  - destruct get_json as [data|e].
    + destruct (sensor_ph data) as [ph|e] eqn:Hph.
      * destruct (sensor_ph_object _ _ Hph) as [m ->]. now destruct (Hnot m).
      * rewrite (sensor_failed rt data e log Hph).
        eexists; repeat split; auto; discriminate.
    + unfold process_sensor_data, try_except, bind, lift, ret.
      eexists; repeat split; auto. intros e' [= ->]. reflexivity.
Qed.

Lemma only_objects_reach_the_models_witness :
  exists r,
    run_view stub CropEndpoint
      (Ok (JArr [JStr "N"; JStr "P"; JStr "K"; JStr "temperature";
                 JStr "humidity"; JStr "ph"; JStr "rainfall"])) [] = (Ok r, []) /\
    (status r = 400 \/ status r = 500) /\
    (CropEndpoint = SensorData -> status r = 500) /\
    (forall e,
       Ok (JArr [JStr "N"; JStr "P"; JStr "K"; JStr "temperature";
                 JStr "humidity"; JStr "ph"; JStr "rainfall"]) = Raise e ->
       r = jsonify (error_object (str_exn e)) 500).
Proof.
  apply (only_objects_reach_the_models stub CropEndpoint
           (Ok (JArr [JStr "N"; JStr "P"; JStr "K"; JStr "temperature";
                      JStr "humidity"; JStr "ph"; JStr "rainfall"])) []);
    discriminate.
Defined.

(** ** The combined endpoint *)

Lemma reconcile_ph_object (m : gmap string json) :
  exists m',
    reconcile_ph (JObj m) = Ok (JObj m') /\
    (forall k, k <> "ph" -> k <> "pH" -> m' !! k = m !! k) /\
    m' !! "ph" = match m !! "ph" with Some v => Some v | None => m !! "pH" end /\
    m' !! "pH" = match m !! "pH" with Some v => Some v | None => m !! "ph" end.
Proof.
  unfold reconcile_ph, py_and, py_not, py_in, py_getitem, py_setitem.
  destruct (m !! "pH") as [a|] eqn:HpH, (m !! "ph") as [b|] eqn:Hph; simpl;
    eexists; (split; [reflexivity|]); repeat split;
    rewrite ?lookup_insert_eq, ?Hph, ?HpH; auto.
  - intros k Hk1 Hk2. now rewrite lookup_insert_ne.
  - rewrite lookup_insert_ne by discriminate. auto.
  - intros k Hk1 Hk2. now rewrite lookup_insert_ne.
  - rewrite lookup_insert_ne by discriminate. auto.
Qed.



(** X9: a combined request that lacks one of N, P, K, temperature,
    humidity, rainfall, or that has neither [ph] nor [pH], is answered
    400 with the 'Missing crop fields' message, and no helper is
    called. *)
Theorem combined_missing_field_400 rt (m : gmap string json) log :
  (exists f, f ∈ ["N"; "P"; "K"; "temperature"; "humidity"; "rainfall"] /\
             m !! f = None) \/
  (m !! "ph" = None /\ m !! "pH" = None) ->
  predict_combined_endpoint rt (Ok (JObj m)) log =
    (Ok (jsonify (error_object
           "Missing crop fields: ['N', 'P', 'K', 'temperature', 'humidity', 'ph', 'rainfall']")
           400),
     log).
Proof.
  intros Hmissing. rewrite combined_unfold.
  destruct (reconcile_ph_object m) as (m' & -> & Hother & Hph & _).
  rewrite (py_all_in_false crop_fields m'); [reflexivity|].
  destruct Hmissing as [(f & Hf & Hnone)|[Hnph HnpH]].
  - exists f.
    repeat (apply elem_of_cons in Hf as [->|Hf]);
      [..|now apply elem_of_nil in Hf];
      (split;
       [unfold crop_fields;
        repeat first [apply list_elem_of_here | apply list_elem_of_further]
       |rewrite Hother; [assumption|discriminate|discriminate]]).
  - exists "ph". split.
    + unfold crop_fields. do 5 apply list_elem_of_further. apply list_elem_of_here.
    + now rewrite Hph, Hnph.
Qed.

Lemma combined_missing_field_400_witness :
  predict_combined_endpoint stub
    (Ok (JObj {[ "N" := JInt 90; "P" := JInt 42; "K" := JInt 43;
                 "temperature" := JInt 20; "humidity" := JInt 82;
                 "rainfall" := JInt 200 ]})) [] =
    (Ok (jsonify (error_object
           "Missing crop fields: ['N', 'P', 'K', 'temperature', 'humidity', 'ph', 'rainfall']")
           400),
     []).
Proof.
  apply (combined_missing_field_400 stub
           {[ "N" := JInt 90; "P" := JInt 42; "K" := JInt 43;
              "temperature" := JInt 20; "humidity" := JInt 82;
              "rainfall" := JInt 200 ]} []).
  right. split; reflexivity.
Defined.

(** ** The sensor endpoint *)



(** X11: when [soilPH] is present but is not a number (null, a string,
    a list, an object), the comparison with 100 raises: the answer is
    500 with the message of that [TypeError], and no helper is
    called. *)
Theorem sensor_bad_ph_500 rt (m : gmap string json) v log :
  m !! "soilPH" = Some v ->
  not_a_number v ->
  process_sensor_data rt (Ok (JObj m)) log =
    (Ok (jsonify (error_object
           ("'>' not supported between instances of '" +:+ type_name v
            +:+ "' and 'int'")) 500),
     log).
Proof.
  intros Hv Hnan.
  rewrite (sensor_failed rt (JObj m)
             (TypeError ("'>' not supported between instances of '" +:+ type_name v
                         +:+ "' and 'int'")) log); [reflexivity|].
  unfold sensor_ph, py_get. rewrite Hv.
  destruct v; try contradiction; reflexivity.
Qed.

Lemma sensor_bad_ph_500_witness :
  process_sensor_data stub (Ok (JObj {[ "soilPH" := JStr "6.5" ]})) [] =
    (Ok (jsonify (error_object
           ("'>' not supported between instances of '" +:+ type_name (JStr "6.5")
            +:+ "' and 'int'")) 500),
     []).
Proof.
  apply (sensor_bad_ph_500 stub {[ "soilPH" := JStr "6.5" ]} (JStr "6.5") []).
  - reflexivity.
  - exact I.
Defined.




(** ** The prediction helpers *)

(** X13: in every prediction a helper returns, the class index is
    inside the label table of its model and the label is the table entry
    at that index, whatever the length of the output row. *)
Theorem prediction_label_is_table_entry rt k input_data log obj log' :
  predict rt k input_data log = (Ok obj, log') ->
  field obj "error" = None ->
  exists class_index label c,
    obj = prediction_object k label c class_index /\
    0 <= class_index < Z.of_nat (length (labels_of k)) /\
    labels_of k !! Z.to_nat class_index = Some label.
Proof.
  rewrite predict_unfold. intros [= <- _] Hok.
  destruct (reply_cases rt k (model_output rt k input_data))
    as [(row & label & c & i & _ & Hasm & Hr)|[msg Hr]]; rewrite Hr in *.
  - apply assemble_inv in Hasm as (Harg & _ & Hlabel).
    exists i, label, c. split; [reflexivity|]. split; [|assumption].
    apply lookup_lt_Some in Hlabel.
    destruct row as [|x rest]; [discriminate|]. injection Harg as <-. lia.
  - rewrite field_error_object in Hok. discriminate.
Qed.

Lemma prediction_label_is_table_entry_witness :
  exists class_index label c,
    prediction_object SoilModel "High" (f64 5 (-3)) 2 =
      prediction_object SoilModel label c class_index /\
    0 <= class_index < Z.of_nat (length (labels_of SoilModel)) /\
    labels_of SoilModel !! Z.to_nat class_index = Some label.
Proof.
  apply (prediction_label_is_table_entry stub SoilModel [] []
           (prediction_object SoilModel "High" (f64 5 (-3)) 2) [PredictSoil []]);
    reflexivity.
Defined.

Lemma assemble_fails_iff rt k row :
  (exists e, assemble rt k row = Raise e) <->
  row = [] \/
  exists i, np_argmax row = Ok i /\ (length (labels_of k) <= Z.to_nat i)%nat.
Proof.
  unfold assemble. destruct row as [|x rest].
  - split; [auto|]. intros _. simpl. eauto.
  - destruct (np_reductions (numpy rt) (x :: rest)) as (i & c & Harg & Hmax & _);
      [discriminate|].
    rewrite Harg, Hmax. unfold py_index. rewrite Nat2Z.id.
    destruct (labels_of k !! i) as [label|] eqn:Hl.
    + split; [intros [e He]; discriminate|].
      intros [Hnil|(j & [= <-] & Hge)]; [discriminate|].
      apply lookup_lt_Some in Hl. rewrite Nat2Z.id in Hge. lia.
    + split; [|eauto]. intros _. right. exists (Z.of_nat i).
      split; [reflexivity|]. rewrite Nat2Z.id. now apply lookup_ge_None.
Qed.

(** X14: a helper replies with an error object exactly when a step up
    to [get_tensor] raised, or the output row is empty, or the index of
    its maximum lies outside the label table. *)
Theorem predict_fails_iff rt k input_data log :
  exists obj,
    predict rt k input_data log = (Ok obj, log ++ [call_of k input_data]) /\
    (is_Some (field obj "error") <->
     (exists e, model_output rt k input_data = Raise e) \/
     model_output rt k input_data = Ok [] \/
     (exists row i,
        model_output rt k input_data = Ok row /\ np_argmax row = Ok i /\
        (length (labels_of k) <= Z.to_nat i)%nat)).
Proof.
  rewrite predict_unfold. eexists. split; [reflexivity|].
  unfold reply. destruct (model_output rt k input_data) as [row|e].
  - destruct (assemble rt k row) as [obj|e] eqn:Hasm.
    + destruct (assemble_shape _ _ _ _ Hasm) as (label & c & i & ->).
      pose proof (field_prediction_object k label c i) as (-> & _).
      split; [intros [? ?]; discriminate|].
      assert (Hno : ~ exists e, assemble rt k row = Raise e)
        by (intros [e He]; congruence).
      rewrite assemble_fails_iff in Hno.
      intros [[e He]|[[= ->]|(row' & j & [= <-] & Harg & Hge)]];
        [discriminate|destruct Hno; auto|destruct Hno; eauto].
    + rewrite field_error_object. simpl. split; [intros _|eauto].
      destruct (proj1 (assemble_fails_iff rt k row)) as [->|(i & Hi & Hge)]; eauto.
      right. right. eauto.
  - rewrite field_error_object. simpl. split; eauto.
Qed.

(** X15: when the maximum of the output row sits at an index the label
    table does not have, the helper replies
    [{'error': 'list index out of range'}]: no label is made up. *)
Theorem prediction_outside_table rt k input_data row i log :
  model_output rt k input_data = Ok row ->
  np_argmax row = Ok i ->
  (length (labels_of k) <= Z.to_nat i)%nat ->
  predict rt k input_data log =
    (Ok (error_object "list index out of range"), log ++ [call_of k input_data]).
Proof.
  intros Hout Harg Hge. rewrite predict_unfold, Hout.
  unfold reply, assemble, py_index. rewrite Harg.
  destruct row as [|x rest]; [discriminate|]. cbn [np_max].
  now rewrite (lookup_ge_None_2 (labels_of k) (Z.to_nat i)).
Qed.

Lemma prediction_outside_table_witness :
  predict
    {| numpy := {| np_array := fun _ => Ok [];
                   max_zero_sign := fun _ => false |};
       crop_model := None;
       soil_model := Some (fixed_model (soil_scores ++ [f64 1 0]));
       crop_scaler := None;
       soil_scaler := Some identity_scaler |}
    SoilModel [] [] =
    (Ok (error_object "list index out of range"), [] ++ [call_of SoilModel []]).
Proof.
  apply (prediction_outside_table _ SoilModel [] (soil_scores ++ [f64 1 0]) 3 []).
  - reflexivity.
  - reflexivity.
  - simpl. lia.
Defined.

(** ** [load_models] and the start of the service *)

Lemma model_output_needs_scaler rt k input_data :
  scaler_of rt k = None -> exists e, model_output rt k input_data = Raise e.
Proof.
  intros Hnone. unfold model_output. rewrite Hnone.
  destruct (attr (model_of rt k) _) as [model|]; [|eauto].
  destruct (get_details model); [|eauto].
  destruct (np_array (numpy rt) input_data); simpl; eauto.
Qed.

Lemma predict_needs_scaler rt k input_data log :
  scaler_of rt k = None ->
  exists msg,
    predict rt k input_data log =
      (Ok (error_object msg), log ++ [call_of k input_data]).
Proof.
  intros Hnone. rewrite predict_unfold.
  destruct (model_output_needs_scaler rt k input_data Hnone) as [e ->]. simpl. eauto.
Qed.

(** X16: when [load_models] returns [True], all six loading steps
    succeeded, in the order of the source, the four globals hold the
    allocated interpreters and the scalers just loaded (whatever they
    held before), and the success line was printed. *)
Theorem load_models_success fs rt printed rt' :
  load_models fs rt = (true, printed, rt') ->
  exists cm0 cm sm0 sm cs ss,
    new_interpreter fs "crop_model.tflite" = Ok cm0 /\
    allocate_tensors fs cm0 = Ok cm /\
    new_interpreter fs "soil_model.tflite" = Ok sm0 /\
    allocate_tensors fs sm0 = Ok sm /\
    joblib_load fs "crop_scaler.pkl" = Ok cs /\
    joblib_load fs "soil_scaler.pkl" = Ok ss /\
    rt' = {| numpy := numpy rt;
             crop_model := Some cm; soil_model := Some sm;
             crop_scaler := Some cs; soil_scaler := Some ss |} /\
    printed = ["? Models and scalers loaded successfully"].
Proof.
  unfold load_models, load_models_body, and_then.
  destruct (new_interpreter fs "crop_model.tflite") as [cm0|] eqn:H1; [|discriminate].
  destruct (allocate_tensors fs cm0) as [cm|] eqn:H2; [|discriminate].
  destruct (new_interpreter fs "soil_model.tflite") as [sm0|] eqn:H3; [|discriminate].
  destruct (allocate_tensors fs sm0) as [sm|] eqn:H4; [|discriminate].
  destruct (joblib_load fs "crop_scaler.pkl") as [cs|] eqn:H5; [|discriminate].
  destruct (joblib_load fs "soil_scaler.pkl") as [ss|] eqn:H6; [|discriminate].
  intros [= <- <-]. exists cm0, cm, sm0, sm, cs, ss.
  repeat (split; [first [assumption|reflexivity]|]). split; reflexivity.
Qed.

Lemma load_models_success_witness :
  exists cm0 cm sm0 sm cs ss,
    new_interpreter all_files "crop_model.tflite" = Ok cm0 /\
    allocate_tensors all_files cm0 = Ok cm /\
    new_interpreter all_files "soil_model.tflite" = Ok sm0 /\
    allocate_tensors all_files sm0 = Ok sm /\
    joblib_load all_files "crop_scaler.pkl" = Ok cs /\
    joblib_load all_files "soil_scaler.pkl" = Ok ss /\
    stub = {| numpy := numpy (module_globals (numpy stub));
              crop_model := Some cm; soil_model := Some sm;
              crop_scaler := Some cs; soil_scaler := Some ss |} /\
    ["? Models and scalers loaded successfully"] =
      ["? Models and scalers loaded successfully"].
Proof.
  apply (load_models_success all_files (module_globals (numpy stub))).
  reflexivity.
Defined.



(** X18: the scalers are loaded after both models. So when the crop
    model loads and the soil model does not, the crop model is in place
    but the crop scaler is [None], and every crop prediction is answered
    by an error object too. *)
Theorem missing_soil_model_blocks_crop_predictions np fs cm0 cm e :
  new_interpreter fs "crop_model.tflite" = Ok cm0 ->
  allocate_tensors fs cm0 = Ok cm ->
  new_interpreter fs "soil_model.tflite" = Raise e ->
  let rt' := snd (load_models fs (module_globals np)) in
  crop_model rt' = Some cm /\
  crop_scaler rt' = None /\
  (forall input_data log,
     exists msg,
       predict_crop rt' input_data log =
         (Ok (error_object msg), log ++ [PredictCrop input_data])).
Proof.
  intros Hcm0 Hcm Hsm rt'.
  assert (Hrt : rt' = set_crop_model (set_crop_model (module_globals np) (Some cm0))
                        (Some cm)).
  { unfold rt', load_models, load_models_body, and_then.
    now rewrite Hcm0, Hcm, Hsm. }
  clearbody rt'. subst rt'. repeat split.
  intros input_data log.
  apply (predict_needs_scaler _ CropModel input_data log). reflexivity.
Qed.

Lemma missing_soil_model_blocks_crop_predictions_witness :
  let rt' := snd (load_models soil_model_missing (module_globals (numpy stub))) in
  crop_model rt' = Some (fixed_model crop_scores) /\
  crop_scaler rt' = None /\
  (forall input_data log,
     exists msg,
       predict_crop rt' input_data log =
         (Ok (error_object msg), log ++ [PredictCrop input_data])).
Proof.
  apply (missing_soil_model_blocks_crop_predictions (numpy stub)
           soil_model_missing (fixed_model crop_scores) (fixed_model crop_scores)
           (ValueError "Could not open 'soil_model.tflite'."));
    reflexivity.
Defined.

(** ** [home] and the routes *)

(** X19: every path that [home] lists under 'endpoints' is a rule of
    the application that accepts POST and leads to a prediction view;
    [home] answers 200. *)
Theorem advertised_endpoints_are_routed name path :
  home_endpoints !! name = Some (JStr path) ->
  exists v,
    (path, ["POST"], v) ∈ url_map /\ v <> Home /\
    field (body home) "endpoints" = Some (JObj home_endpoints) /\
    status home = 200.
Proof.
  unfold home_endpoints. intros Hlookup.
  destruct (decide (name = "crop_prediction")) as [->|H1].
  { injection Hlookup as <-. exists CropEndpoint. repeat split; [|discriminate].
    apply list_elem_of_further, list_elem_of_here. }
  rewrite lookup_insert_ne in Hlookup by congruence.
  destruct (decide (name = "soil_prediction")) as [->|H2].
  { injection Hlookup as <-. exists SoilEndpoint. repeat split; [|discriminate].
    do 2 apply list_elem_of_further. apply list_elem_of_here. }
  rewrite lookup_insert_ne in Hlookup by congruence.
  destruct (decide (name = "combined_prediction")) as [->|H3].
  { injection Hlookup as <-. exists CombinedEndpoint. repeat split; [|discriminate].
    do 3 apply list_elem_of_further. apply list_elem_of_here. }
  rewrite lookup_singleton_ne in Hlookup by congruence. discriminate.
Qed.

Lemma advertised_endpoints_are_routed_witness :
  exists v,
    ("/predict/soil", ["POST"], v) ∈ url_map /\ v <> Home /\
    field (body home) "endpoints" = Some (JObj home_endpoints) /\
    status home = 200.
Proof.
  apply (advertised_endpoints_are_routed "soil_prediction" "/predict/soil").
  reflexivity.
Defined.
